(** * moveit_core / dynamics_solver

    A shallow embedding of [dynamics_solver.cpp]: the constructor of
    [DynamicsSolver] and its queries [getTorques], [getMaxPayload],
    [getPayloadTorques] and [getMaxTorques].

    - A C++ [double] is a binary64 primitive float; [fabs], [std::max] and
      the comparisons are the IEEE ones, NaN included.
    - [std::vector] is a list; [v[i]] and [v.back()] outside the vector are
      undefined behaviour, written [Undefined] here.
    - The robot model and the URDF are records of what the file reads from
      them. The robot state, the KDL tree and chain and the KDL inverse
      dynamics solver are collaborators of the file: they are the fields of
      the class [Collaborators].
    - A method runs in a small state monad over a [World]: the solver
      object (with the robot state it points to) and a trace that records
      the diagnostics of the failure paths and every call of the inverse
      dynamics solver. Informational debug output is not recorded. *)

From Stdlib Require Import ZArith Lia Floats.
From stdpp Require Import base option list strings.

(** ** Doubles *)

Module double.
(** [std::numeric_limits<double>::max()] *)
Definition numeric_limits_max : float := 0x1.fffffffffffffp+1023%float.

Definition fabs (a : float) : float := PrimFloat.abs a.

(** [std::max(a, b)] is [(a < b) ? b : a]. *)
Definition max (a b : float) : float := if (a <? b)%float then b else a.

(** [a >= b] *)
Definition ge (a b : float) : bool := (b <=? a)%float.

(** [a < b] *)
Definition lt (a b : float) : bool := (a <? b)%float.
End double.

(** ** Messages *)

Module geometry_msgs.
Record Vector3 := { x : float; y : float; z : float }.
Record Wrench := { force : Vector3; torque : Vector3 }.

(** Value initialisation: every component is [0.0]. *)
Definition Vector3_zero : Vector3 := {| x := 0; y := 0; z := 0 |}.
Definition Wrench_zero : Wrench := {| force := Vector3_zero; torque := Vector3_zero |}.

Definition set_force (f : Vector3) (w : Wrench) : Wrench :=
  {| force := f; torque := torque w |}.
Definition set_torque (t : Vector3) (w : Wrench) : Wrench :=
  {| force := force w; torque := t |}.
Definition set_z (c : float) (v : Vector3) : Vector3 :=
  {| x := x v; y := y v; z := c |}.
End geometry_msgs.

(** ** Eigen: 3-vectors, 3x3 matrices and isometries

    The operations of the Eigen library that the file calls, written out on
    doubles: [inverse()] and [*] of isometries, [linear()] and the product of
    a matrix and a vector. A coefficient of a product is the sum of the three
    products, added from the left. *)

Module Eigen.
Record Vector3d := { x : float; y : float; z : float }.
Record Matrix3d := { row0 : Vector3d; row1 : Vector3d; row2 : Vector3d }.

Definition dot (a b : Vector3d) : float :=
  (x a * x b + y a * y b + z a * z b)%float.

Definition col0 (m : Matrix3d) : Vector3d :=
  {| x := x (row0 m); y := x (row1 m); z := x (row2 m) |}.
Definition col1 (m : Matrix3d) : Vector3d :=
  {| x := y (row0 m); y := y (row1 m); z := y (row2 m) |}.
Definition col2 (m : Matrix3d) : Vector3d :=
  {| x := z (row0 m); y := z (row1 m); z := z (row2 m) |}.

Definition transpose (m : Matrix3d) : Matrix3d :=
  {| row0 := col0 m; row1 := col1 m; row2 := col2 m |}.

Definition mat_vec (m : Matrix3d) (v : Vector3d) : Vector3d :=
  {| x := dot (row0 m) v; y := dot (row1 m) v; z := dot (row2 m) v |}.

Definition row_mat (r : Vector3d) (m : Matrix3d) : Vector3d :=
  {| x := dot r (col0 m); y := dot r (col1 m); z := dot r (col2 m) |}.

Definition mat_mul (a b : Matrix3d) : Matrix3d :=
  {| row0 := row_mat (row0 a) b; row1 := row_mat (row1 a) b; row2 := row_mat (row2 a) b |}.

Definition vec_add (a b : Vector3d) : Vector3d :=
  {| x := x a + x b; y := y a + y b; z := z a + z b |}%float.
Definition vec_opp (a : Vector3d) : Vector3d :=
  {| x := - x a; y := - y a; z := - z a |}%float.

(** [Eigen::Isometry3d]: a rotation ([linear()]) and a translation. *)
Record Isometry3d := { linear : Matrix3d; translation : Vector3d }.

(** [t.inverse()] in isometry mode: the transposed rotation, and the
    translation it sends back to the origin. *)
Definition inverse (t : Isometry3d) : Isometry3d :=
  {| linear := transpose (linear t);
     translation := vec_opp (mat_vec (transpose (linear t)) (translation t)) |}.

(** [a * b] *)
Definition mul (a b : Isometry3d) : Isometry3d :=
  {| linear := mat_mul (linear a) (linear b);
     translation := vec_add (mat_vec (linear a) (translation b)) (translation a) |}.

Definition finite_vector (v : Vector3d) : bool :=
  is_finite (x v) && is_finite (y v) && is_finite (z v).
Definition finite_matrix (m : Matrix3d) : bool :=
  finite_vector (row0 m) && finite_vector (row1 m) && finite_vector (row2 m).

Definition Identity3 : Matrix3d :=
  {| row0 := {| x := 1; y := 0; z := 0 |};
     row1 := {| x := 0; y := 1; z := 0 |};
     row2 := {| x := 0; y := 0; z := 1 |} |}.
End Eigen.

(** ** KDL values *)

Module KDL.
Record Vector := { x : float; y : float; z : float }.
(** Components 0 to 2 of a [KDL::Wrench] are the force, 3 to 5 the torque. *)
Record Wrench := { force : Vector; torque : Vector }.
Definition Vector_zero : Vector := {| x := 0; y := 0; z := 0 |}.
Definition Wrench_zero : Wrench := {| force := Vector_zero; torque := Vector_zero |}.
End KDL.

(** ** URDF and the robot model *)

(** A [std::map] keyed by name, as the list of its entries; [find] returns
    the entry of the name, if there is one. *)
Fixpoint find_by_name {A} (n : string) (entries : list (string * A)) : option A :=
  match entries with
  | [] => None
  | (k, a) :: entries' => if String.eqb k n then Some a else find_by_name n entries'
  end.

Module urdf.
Record JointLimits :=
  { lower : float; upper : float; effort : float; velocity : float }.
Inductive JointType :=
  UNKNOWN | REVOLUTE | CONTINUOUS | PRISMATIC | FLOATING | PLANAR | FIXED.
Record Joint :=
  { name : string;
    type : JointType;
    parent_link_name : string;
    child_link_name : string;
    limits : option JointLimits }.
Record ModelInterface := { joints_ : list (string * Joint) }.

(** [getJoint(name)]: a null pointer when the model has no such joint. *)
Definition getJoint (m : ModelInterface) (n : string) : option Joint :=
  find_by_name n (joints_ m).
End urdf.

Module moveit_core.
Record LinkModel := { link_name : string }.
Record JointModel :=
  { joint_name : string; parent_link_model : option LinkModel }.
(** [getJointModelNames] gives the names of all the joints of the group, in
    the order of the group, fixed joints included. *)
Record JointModelGroup :=
  { group_name : string;
    isChain : bool;
    getMimicJointModels : list JointModel;
    getJointRoots : list JointModel;
    getLinkModelNames : list string;
    getJointModelNames : list string }.
Record RobotModel :=
  { getURDF : urdf.ModelInterface;
    joint_model_group_map_ : list (string * JointModelGroup) }.

(** [getJointModelGroup(name)]: a null pointer when there is no such group. *)
Definition getJointModelGroup (m : RobotModel) (n : string) : option JointModelGroup :=
  find_by_name n (joint_model_group_map_ m).
End moveit_core.

(** ** Collaborators

    What the file consumes and does not implement: the robot state with its
    frame transforms, the KDL tree and chain built from the URDF, the norm
    of a KDL vector, and [ChainIdSolver_RNE::CartToJnt], which returns a
    status and the torque of every joint index. *)

Class Collaborators := {
  RobotState : Type;
  RobotState_new : moveit_core.RobotModel -> RobotState;
  setToDefaultValues : RobotState -> RobotState;
  setJointGroupPositions :
    RobotState -> moveit_core.JointModelGroup -> list float -> RobotState;
  getFrameTransform : RobotState -> string -> Eigen.Isometry3d;
  Tree : Type;
  Chain : Type;
  Chain_empty : Chain;
  treeFromUrdfModel : urdf.ModelInterface -> option Tree;
  getChain : Tree -> string -> string -> option Chain;
  getNrOfJoints : Chain -> nat;
  getNrOfSegments : Chain -> nat;
  Vector_Norm : KDL.Vector -> float;
  CartToJnt :
    Chain -> KDL.Vector ->
    list float -> list float -> list float -> list KDL.Wrench ->
    Z * (nat -> float)
}.

(** ** Trace *)

Inductive Diagnostic :=
  | NotConstructed
  | GroupNotChain (group : string)
  | GroupHasMimicJoint (group : string)
  | GroupNoParentLink (group : string)
  | TreeNotInitialized
  | ChainNotInitialized
  | JointAnglesSize (n : nat)
  | JointVelocitiesSize (n : nat)
  | JointAccelerationsSize (n : nat)
  | WrenchesSize (n : nat)
  | TorquesSize (n : nat)
  | JointTorquesSize (n : nat)
  | TorqueComputationFailed.

Inductive Event :=
  | LogDebug (d : Diagnostic)
  | LogError (d : Diagnostic)
  | Solve (q qdot qdotdot : list float) (f_ext : list KDL.Wrench).

(** The number of inverse dynamics solves among some events. *)
Fixpoint solve_count (es : list Event) : nat :=
  match es with
  | [] => 0
  | Solve _ _ _ _ :: es' => S (solve_count es')
  | _ :: es' => solve_count es'
  end.

Section Solver.
Context {ext : Collaborators}.

(** ** The solver object *)

Record DynamicsSolver := {
  chain_id_solver_ : option (Chain * KDL.Vector);
  kdl_chain_ : Chain;
  robot_model_ : option moveit_core.RobotModel;
  joint_model_group_ : option moveit_core.JointModelGroup;
  state_ : option RobotState;
  base_name_ : string;
  tip_name_ : string;
  num_joints_ : nat;
  num_segments_ : nat;
  max_torques_ : list float;
  gravity_ : float
}.

(** The members a constructor that returns early never writes: class-type
    members are default constructed, the scalars hold whatever was there. *)
Record Indeterminate := {
  indet_num_joints : nat;
  indet_num_segments : nat;
  indet_gravity : float
}.

Definition uninitialized (i : Indeterminate) : DynamicsSolver :=
  {| chain_id_solver_ := None;
     kdl_chain_ := Chain_empty;
     robot_model_ := None;
     joint_model_group_ := None;
     state_ := None;
     base_name_ := "";
     tip_name_ := "";
     num_joints_ := indet_num_joints i;
     num_segments_ := indet_num_segments i;
     max_torques_ := [];
     gravity_ := indet_gravity i |}.

Definition set_chain_id_solver_ (v : option (Chain * KDL.Vector)) (s : DynamicsSolver) :=
  {| chain_id_solver_ := v; kdl_chain_ := kdl_chain_ s; robot_model_ := robot_model_ s;
     joint_model_group_ := joint_model_group_ s; state_ := state_ s;
     base_name_ := base_name_ s; tip_name_ := tip_name_ s; num_joints_ := num_joints_ s;
     num_segments_ := num_segments_ s; max_torques_ := max_torques_ s; gravity_ := gravity_ s |}.
Definition set_kdl_chain_ (v : Chain) (s : DynamicsSolver) :=
  {| chain_id_solver_ := chain_id_solver_ s; kdl_chain_ := v; robot_model_ := robot_model_ s;
     joint_model_group_ := joint_model_group_ s; state_ := state_ s;
     base_name_ := base_name_ s; tip_name_ := tip_name_ s; num_joints_ := num_joints_ s;
     num_segments_ := num_segments_ s; max_torques_ := max_torques_ s; gravity_ := gravity_ s |}.
Definition set_robot_model_ (v : option moveit_core.RobotModel) (s : DynamicsSolver) :=
  {| chain_id_solver_ := chain_id_solver_ s; kdl_chain_ := kdl_chain_ s; robot_model_ := v;
     joint_model_group_ := joint_model_group_ s; state_ := state_ s;
     base_name_ := base_name_ s; tip_name_ := tip_name_ s; num_joints_ := num_joints_ s;
     num_segments_ := num_segments_ s; max_torques_ := max_torques_ s; gravity_ := gravity_ s |}.
Definition set_joint_model_group_ (v : option moveit_core.JointModelGroup) (s : DynamicsSolver) :=
  {| chain_id_solver_ := chain_id_solver_ s; kdl_chain_ := kdl_chain_ s; robot_model_ := robot_model_ s;
     joint_model_group_ := v; state_ := state_ s;
     base_name_ := base_name_ s; tip_name_ := tip_name_ s; num_joints_ := num_joints_ s;
     num_segments_ := num_segments_ s; max_torques_ := max_torques_ s; gravity_ := gravity_ s |}.
Definition set_state_ (v : option RobotState) (s : DynamicsSolver) :=
  {| chain_id_solver_ := chain_id_solver_ s; kdl_chain_ := kdl_chain_ s; robot_model_ := robot_model_ s;
     joint_model_group_ := joint_model_group_ s; state_ := v;
     base_name_ := base_name_ s; tip_name_ := tip_name_ s; num_joints_ := num_joints_ s;
     num_segments_ := num_segments_ s; max_torques_ := max_torques_ s; gravity_ := gravity_ s |}.
Definition set_base_name_ (v : string) (s : DynamicsSolver) :=
  {| chain_id_solver_ := chain_id_solver_ s; kdl_chain_ := kdl_chain_ s; robot_model_ := robot_model_ s;
     joint_model_group_ := joint_model_group_ s; state_ := state_ s;
     base_name_ := v; tip_name_ := tip_name_ s; num_joints_ := num_joints_ s;
     num_segments_ := num_segments_ s; max_torques_ := max_torques_ s; gravity_ := gravity_ s |}.
Definition set_tip_name_ (v : string) (s : DynamicsSolver) :=
  {| chain_id_solver_ := chain_id_solver_ s; kdl_chain_ := kdl_chain_ s; robot_model_ := robot_model_ s;
     joint_model_group_ := joint_model_group_ s; state_ := state_ s;
     base_name_ := base_name_ s; tip_name_ := v; num_joints_ := num_joints_ s;
     num_segments_ := num_segments_ s; max_torques_ := max_torques_ s; gravity_ := gravity_ s |}.
Definition set_num_joints_ (v : nat) (s : DynamicsSolver) :=
  {| chain_id_solver_ := chain_id_solver_ s; kdl_chain_ := kdl_chain_ s; robot_model_ := robot_model_ s;
     joint_model_group_ := joint_model_group_ s; state_ := state_ s;
     base_name_ := base_name_ s; tip_name_ := tip_name_ s; num_joints_ := v;
     num_segments_ := num_segments_ s; max_torques_ := max_torques_ s; gravity_ := gravity_ s |}.
Definition set_num_segments_ (v : nat) (s : DynamicsSolver) :=
  {| chain_id_solver_ := chain_id_solver_ s; kdl_chain_ := kdl_chain_ s; robot_model_ := robot_model_ s;
     joint_model_group_ := joint_model_group_ s; state_ := state_ s;
     base_name_ := base_name_ s; tip_name_ := tip_name_ s; num_joints_ := num_joints_ s;
     num_segments_ := v; max_torques_ := max_torques_ s; gravity_ := gravity_ s |}.
Definition set_max_torques_ (v : list float) (s : DynamicsSolver) :=
  {| chain_id_solver_ := chain_id_solver_ s; kdl_chain_ := kdl_chain_ s; robot_model_ := robot_model_ s;
     joint_model_group_ := joint_model_group_ s; state_ := state_ s;
     base_name_ := base_name_ s; tip_name_ := tip_name_ s; num_joints_ := num_joints_ s;
     num_segments_ := num_segments_ s; max_torques_ := v; gravity_ := gravity_ s |}.
Definition set_gravity_ (v : float) (s : DynamicsSolver) :=
  {| chain_id_solver_ := chain_id_solver_ s; kdl_chain_ := kdl_chain_ s; robot_model_ := robot_model_ s;
     joint_model_group_ := joint_model_group_ s; state_ := state_ s;
     base_name_ := base_name_ s; tip_name_ := tip_name_ s; num_joints_ := num_joints_ s;
     num_segments_ := num_segments_ s; max_torques_ := max_torques_ s; gravity_ := v |}.

(** ** The monad of the methods *)

Record World := { self : DynamicsSolver; trace : list Event }.

Inductive Outcome (A : Type) :=
  | Returns (a : A) (w : World)
  | Undefined.
Arguments Returns {A} a w.
Arguments Undefined {A}.

Definition M (A : Type) : Type := World -> Outcome A.

#[export] Instance M_ret : MRet M := fun A a w => Returns a w.
#[export] Instance M_bind : MBind M := fun A B f m w =>
  match m w with
  | Returns a w' => f a w'
  | Undefined => Undefined
  end.

Definition this : M DynamicsSolver := fun w => Returns (self w) w.
Definition assign (f : DynamicsSolver -> DynamicsSolver) : M unit :=
  fun w => Returns tt {| self := f (self w); trace := trace w |}.
Definition emit (e : Event) : M unit :=
  fun w => Returns tt {| self := self w; trace := trace w ++ [e] |}.
Definition RCLCPP_DEBUG (d : Diagnostic) : M unit := emit (LogDebug d).
Definition RCLCPP_ERROR (d : Diagnostic) : M unit := emit (LogError d).

(** A read outside a vector, or through a null pointer, has no value. *)
Definition defined {A} (o : option A) : M A :=
  fun w => match o with Some a => Returns a w | None => Undefined end.

Fixpoint for_each {A} (l : list A) (body : A -> M unit) : M unit :=
  match l with
  | [] => mret tt
  | a :: l' => body a ;; for_each l' body
  end.

(** ** Vectors *)

(** [v[i] = a] *)
Definition vec_set {A} (v : list A) (i : nat) (a : A) : option (list A) :=
  if decide (i < length v) then Some (<[i:=a]> v) else None.

(** [v.back()], modified in place by [f]. *)
Definition update_back {A} (f : A -> A) (v : list A) : option (list A) :=
  a ← last v; Some (removelast v ++ [f a]).

(** [for (unsigned int i = first; i < first + count; ++i) body] over local
    variables. *)
Fixpoint for_loop {St} (first count : nat) (body : nat -> St -> option St) (s : St)
  : option St :=
  match count with
  | O => Some s
  | S count' => s' ← body first s; for_loop (S first) count' body s'
  end.

(** ** Constructor *)

Definition effort_limit (urdf_model : urdf.ModelInterface) (joint_model_name : string)
  : float :=
  match urdf.getJoint urdf_model joint_model_name with
  | Some ujoint =>
      match urdf.limits ujoint with
      | Some l => urdf.effort l
      | None => 0%float
      end
  | None => 0%float
  end.

Definition DynamicsSolver_ctor (robot_model : moveit_core.RobotModel)
    (group_name : string) (gravity_vector : geometry_msgs.Vector3) : M unit :=
  assign (set_robot_model_ (Some robot_model)) ;;
  assign (set_joint_model_group_ (moveit_core.getJointModelGroup robot_model group_name)) ;;
  s ← this;
  match joint_model_group_ s with
  | None => mret tt
  | Some group =>
    if negb (moveit_core.isChain group) then
      RCLCPP_ERROR (GroupNotChain group_name) ;;
      assign (set_joint_model_group_ None)
    else if negb (bool_decide (moveit_core.getMimicJointModels group = [])) then
      RCLCPP_ERROR (GroupHasMimicJoint group_name) ;;
      assign (set_joint_model_group_ None)
    else
      joint ← defined (moveit_core.getJointRoots group !! 0%nat);
      match moveit_core.parent_link_model joint with
      | None =>
          RCLCPP_ERROR (GroupNoParentLink group_name) ;;
          assign (set_joint_model_group_ None)
      | Some parent =>
          assign (set_base_name_ (moveit_core.link_name parent)) ;;
          tip ← defined (last (moveit_core.getLinkModelNames group));
          assign (set_tip_name_ tip) ;;
          let urdf_model := moveit_core.getURDF robot_model in
          match treeFromUrdfModel urdf_model with
          | None =>
              RCLCPP_ERROR TreeNotInitialized ;;
              assign (set_joint_model_group_ None)
          | Some tree =>
              match getChain tree (moveit_core.link_name parent) tip with
              | None =>
                  RCLCPP_ERROR ChainNotInitialized ;;
                  assign (set_joint_model_group_ None)
              | Some chain =>
                  assign (set_kdl_chain_ chain) ;;
                  assign (set_num_joints_ (getNrOfJoints chain)) ;;
                  assign (set_num_segments_ (getNrOfSegments chain)) ;;
                  assign (set_state_ (Some (setToDefaultValues (RobotState_new robot_model)))) ;;
                  for_each (moveit_core.getJointModelNames group) (fun joint_model_name =>
                    assign (fun o =>
                      set_max_torques_
                        (max_torques_ o ++ [effort_limit urdf_model joint_model_name]) o)) ;;
                  let gravity :=
                    {| KDL.x := geometry_msgs.x gravity_vector;
                       KDL.y := geometry_msgs.y gravity_vector;
                       KDL.z := geometry_msgs.z gravity_vector |} in
                  assign (set_gravity_ (Vector_Norm gravity)) ;;
                  assign (set_chain_id_solver_ (Some (chain, gravity)))
              end
          end
      end
  end.

(** [DynamicsSolver solver(robot_model, group_name, gravity_vector)] *)
Definition construct (i : Indeterminate) (robot_model : moveit_core.RobotModel)
    (group_name : string) (gravity_vector : geometry_msgs.Vector3) : Outcome unit :=
  DynamicsSolver_ctor robot_model group_name gravity_vector
    {| self := uninitialized i; trace := [] |}.

(** ** transformVector *)

Definition transformVector (transform : Eigen.Isometry3d)
    (vector : geometry_msgs.Vector3) : geometry_msgs.Vector3 :=
  let p := {| Eigen.x := geometry_msgs.x vector;
              Eigen.y := geometry_msgs.y vector;
              Eigen.z := geometry_msgs.z vector |} in
  let p := Eigen.mat_vec (Eigen.linear transform) p in
  {| geometry_msgs.x := Eigen.x p;
     geometry_msgs.y := Eigen.y p;
     geometry_msgs.z := Eigen.z p |}.

(** ** getTorques *)

Definition to_kdl_wrench (w : geometry_msgs.Wrench) : KDL.Wrench :=
  {| KDL.force :=
       {| KDL.x := geometry_msgs.x (geometry_msgs.force w);
          KDL.y := geometry_msgs.y (geometry_msgs.force w);
          KDL.z := geometry_msgs.z (geometry_msgs.force w) |};
     KDL.torque :=
       {| KDL.x := geometry_msgs.x (geometry_msgs.torque w);
          KDL.y := geometry_msgs.y (geometry_msgs.torque w);
          KDL.z := geometry_msgs.z (geometry_msgs.torque w) |} |}.

(** The first loop of [getTorques]: one pass fills the three KDL arrays. *)
Definition copy_joint_state (joint_angles joint_velocities joint_accelerations : list float)
    (i : nat) (k : list float * list float * list float)
  : option (list float * list float * list float) :=
  let '(kdl_angles, kdl_velocities, kdl_accelerations) := k in
  a ← joint_angles !! i;
  kdl_angles' ← vec_set kdl_angles i a;
  v ← joint_velocities !! i;
  kdl_velocities' ← vec_set kdl_velocities i v;
  c ← joint_accelerations !! i;
  kdl_accelerations' ← vec_set kdl_accelerations i c;
  Some (kdl_angles', kdl_velocities', kdl_accelerations').

Definition copy_wrench (wrenches : list geometry_msgs.Wrench)
    (i : nat) (kdl_wrenches : list KDL.Wrench) : option (list KDL.Wrench) :=
  w ← wrenches !! i;
  vec_set kdl_wrenches i (to_kdl_wrench w).

Definition getTorques (joint_angles joint_velocities joint_accelerations : list float)
    (wrenches : list geometry_msgs.Wrench) (torques : list float)
  : M (bool * list float) :=
  s ← this;
  match joint_model_group_ s with
  | None => RCLCPP_DEBUG NotConstructed ;; mret (false, torques)
  | Some _ =>
    if decide (length joint_angles ≠ num_joints_ s) then
      RCLCPP_ERROR (JointAnglesSize (num_joints_ s)) ;; mret (false, torques)
    else if decide (length joint_velocities ≠ num_joints_ s) then
      RCLCPP_ERROR (JointVelocitiesSize (num_joints_ s)) ;; mret (false, torques)
    else if decide (length joint_accelerations ≠ num_joints_ s) then
      RCLCPP_ERROR (JointAccelerationsSize (num_joints_ s)) ;; mret (false, torques)
    else if decide (length wrenches ≠ num_segments_ s) then
      RCLCPP_ERROR (WrenchesSize (num_segments_ s)) ;; mret (false, torques)
    else if decide (length torques ≠ num_joints_ s) then
      RCLCPP_ERROR (TorquesSize (num_joints_ s)) ;; mret (false, torques)
    else
      '(kdl_angles, kdl_velocities, kdl_accelerations) ←
        defined (for_loop 0 (num_joints_ s)
                   (copy_joint_state joint_angles joint_velocities joint_accelerations)
                   (replicate (num_joints_ s) 0%float,
                    replicate (num_joints_ s) 0%float,
                    replicate (num_joints_ s) 0%float));
      kdl_wrenches ←
        defined (for_loop 0 (num_segments_ s) (copy_wrench wrenches)
                   (replicate (num_segments_ s) KDL.Wrench_zero));
      '(chain, gravity) ← defined (chain_id_solver_ s);
      emit (Solve kdl_angles kdl_velocities kdl_accelerations kdl_wrenches) ;;
      let '(status, kdl_torques) :=
        CartToJnt chain gravity kdl_angles kdl_velocities kdl_accelerations kdl_wrenches in
      if (status <? 0)%Z then
        RCLCPP_ERROR TorqueComputationFailed ;; mret (false, torques)
      else
        torques' ← defined (for_loop 0 (num_joints_ s)
                              (fun i t => vec_set t i (kdl_torques i)) torques);
        mret (true, torques')
  end.

(** ** getMaxPayload *)

(** Lines 246 to 254: [Some i] when the loop returns at joint [i]. *)
Fixpoint find_saturated (first count : nat) (zero_torques max_torques : list float)
  : option (option nat) :=
  match count with
  | O => Some None
  | S count' =>
      zt ← zero_torques !! first;
      mt ← max_torques !! first;
      if double.ge (double.fabs zt) mt then Some (Some first)
      else find_saturated (S first) count' zero_torques max_torques
  end.

Definition payload_joint (max_torque zero_torque torque : float) : float :=
  double.max ((max_torque - zero_torque) / (torque - zero_torque))
             ((- max_torque - zero_torque) / (torque - zero_torque))%float.

(** The body of the loop of lines 271 to 284, over [min_payload] and
    [joint_saturated]. *)
Definition min_payload_step (max_torques zero_torques torques : list float)
    (i : nat) (acc : float * nat) : option (float * nat) :=
  mt ← max_torques !! i;
  zt ← zero_torques !! i;
  t ← torques !! i;
  let pj := payload_joint mt zt t in
  Some (if double.lt pj (fst acc) then (pj, i) else acc).

(** The wrench of a force [fz] along z at the tip, taken through [transform]. *)
Definition apply_tip_force (transform : Eigen.Isometry3d) (fz : float)
    (wrenches : list geometry_msgs.Wrench) : option (list geometry_msgs.Wrench) :=
  wrenches ← update_back
    (fun w => geometry_msgs.set_force (geometry_msgs.set_z fz (geometry_msgs.force w)) w)
    wrenches;
  wrenches ← update_back
    (fun w => geometry_msgs.set_force (transformVector transform (geometry_msgs.force w)) w)
    wrenches;
  update_back
    (fun w => geometry_msgs.set_torque (transformVector transform (geometry_msgs.torque w)) w)
    wrenches.

(** [state_->setJointGroupPositions(joint_model_group_, joint_angles)], then
    [tip_frame.inverse() * base_frame]. *)
Definition update_state_and_get_transform (group : moveit_core.JointModelGroup)
    (joint_angles : list float) : M Eigen.Isometry3d :=
  s ← this;
  st ← defined (state_ s);
  let st' := setJointGroupPositions st group joint_angles in
  assign (set_state_ (Some st')) ;;
  let base_frame := getFrameTransform st' (base_name_ s) in
  let tip_frame := getFrameTransform st' (tip_name_ s) in
  mret (Eigen.mul (Eigen.inverse tip_frame) base_frame).

Definition getMaxPayload (joint_angles : list float) (payload : float)
    (joint_saturated : nat) : M (bool * float * nat) :=
  s ← this;
  match joint_model_group_ s with
  | None => RCLCPP_DEBUG NotConstructed ;; mret (false, payload, joint_saturated)
  | Some group =>
    if decide (length joint_angles ≠ num_joints_ s) then
      RCLCPP_ERROR (JointAnglesSize (num_joints_ s)) ;;
      mret (false, payload, joint_saturated)
    else
      let joint_velocities := replicate (num_joints_ s) 0%float in
      let joint_accelerations := replicate (num_joints_ s) 0%float in
      let torques := replicate (num_joints_ s) 0%float in
      let zero_torques := replicate (num_joints_ s) 0%float in
      let wrenches := replicate (num_segments_ s) geometry_msgs.Wrench_zero in
      '(ok, zero_torques) ←
        getTorques joint_angles joint_velocities joint_accelerations wrenches zero_torques;
      if negb ok then mret (false, payload, joint_saturated)
      else
        sat ← defined (find_saturated 0 (num_joints_ s) zero_torques (max_torques_ s));
        match sat with
        | Some i => mret (true, 0%float, i)
        | None =>
            transform ← update_state_and_get_transform group joint_angles;
            wrenches ← defined (apply_tip_force transform 1%float wrenches);
            '(ok, torques) ←
              getTorques joint_angles joint_velocities joint_accelerations wrenches torques;
            if negb ok then mret (false, payload, joint_saturated)
            else
              '(min_payload, joint_saturated) ←
                defined (for_loop 0 (num_joints_ s)
                           (min_payload_step (max_torques_ s) zero_torques torques)
                           (double.numeric_limits_max, joint_saturated));
              mret (true, (min_payload / gravity_ s)%float, joint_saturated)
        end
  end.

(** ** getPayloadTorques *)

Definition getPayloadTorques (joint_angles : list float) (payload : float)
    (joint_torques : list float) : M (bool * list float) :=
  s ← this;
  match joint_model_group_ s with
  | None => RCLCPP_DEBUG NotConstructed ;; mret (false, joint_torques)
  | Some group =>
    if decide (length joint_angles ≠ num_joints_ s) then
      RCLCPP_ERROR (JointAnglesSize (num_joints_ s)) ;; mret (false, joint_torques)
    else if decide (length joint_torques ≠ num_joints_ s) then
      RCLCPP_ERROR (JointTorquesSize (num_joints_ s)) ;; mret (false, joint_torques)
    else
      let joint_velocities := replicate (num_joints_ s) 0%float in
      let joint_accelerations := replicate (num_joints_ s) 0%float in
      let wrenches := replicate (num_segments_ s) geometry_msgs.Wrench_zero in
      transform ← update_state_and_get_transform group joint_angles;
      wrenches ← defined (apply_tip_force transform (payload * gravity_ s)%float wrenches);
      getTorques joint_angles joint_velocities joint_accelerations wrenches joint_torques
  end.

(** ** getMaxTorques *)

Definition getMaxTorques : M (list float) :=
  s ← this; mret (max_torques_ s).

(** ** Vocabulary of the statements *)

(** What a constructor that ran to its end has set up behind a non-null
    [joint_model_group_]: the inverse dynamics solver and the robot state. *)
Definition constructed (s : DynamicsSolver) : bool :=
  match joint_model_group_ s with
  | None => true
  | Some _ =>
      match chain_id_solver_ s, state_ s with
      | Some _, Some _ => true
      | _, _ => false
      end
  end.

(** A solver is valid when [joint_model_group_] is not null. *)
Definition valid (s : DynamicsSolver) : bool :=
  match joint_model_group_ s with Some _ => true | None => false end.

(** The world with more events in its trace. *)
Definition record (w : World) (es : list Event) : World :=
  {| self := self w; trace := trace w ++ es |}.

(** The event of a solve on the caller's vectors. *)
Definition solve_event (joint_angles joint_velocities joint_accelerations : list float)
    (wrenches : list geometry_msgs.Wrench) : Event :=
  Solve joint_angles joint_velocities joint_accelerations (to_kdl_wrench <$> wrenches).

(** What the inverse dynamics solver of [s] answers on the caller's vectors:
    the status and the torque of each joint index. *)
Definition solve_for (s : DynamicsSolver)
    (joint_angles joint_velocities joint_accelerations : list float)
    (wrenches : list geometry_msgs.Wrench) : option (Z * (nat -> float)) :=
  '(chain, gravity) ← chain_id_solver_ s;
  Some (CartToJnt chain gravity joint_angles joint_velocities joint_accelerations
          (to_kdl_wrench <$> wrenches)).

(** The preconditions of [computeTorques] in the order the specification
    lists them, each with its diagnostic: validity, then the lengths of the
    angles, velocities, accelerations, wrenches and output buffer. *)
Definition precondition_failure (s : DynamicsSolver)
    (joint_angles joint_velocities joint_accelerations : list float)
    (wrenches : list geometry_msgs.Wrench) (torques : list float) : option Event :=
  if negb (valid s) then Some (LogDebug NotConstructed)
  else if negb (bool_decide (length joint_angles = num_joints_ s))
  then Some (LogError (JointAnglesSize (num_joints_ s)))
  else if negb (bool_decide (length joint_velocities = num_joints_ s))
  then Some (LogError (JointVelocitiesSize (num_joints_ s)))
  else if negb (bool_decide (length joint_accelerations = num_joints_ s))
  then Some (LogError (JointAccelerationsSize (num_joints_ s)))
  else if negb (bool_decide (length wrenches = num_segments_ s))
  then Some (LogError (WrenchesSize (num_segments_ s)))
  else if negb (bool_decide (length torques = num_joints_ s))
  then Some (LogError (TorquesSize (num_joints_ s)))
  else None.

(** [computeTorques] as the specification describes it: the first failed
    precondition, or else one solve, a failure on a negative status and the
    torques of the joints otherwise. The answer is the success flag, the
    output buffer and the events; there is none when the solver is missing. *)
Definition computeTorques_spec (s : DynamicsSolver)
    (joint_angles joint_velocities joint_accelerations : list float)
    (wrenches : list geometry_msgs.Wrench) (torques : list float)
  : option (bool * list float * list Event) :=
  let call := solve_event joint_angles joint_velocities joint_accelerations wrenches in
  match precondition_failure s joint_angles joint_velocities joint_accelerations
          wrenches torques with
  | Some e => Some (false, torques, [e])
  | None =>
      r ← solve_for s joint_angles joint_velocities joint_accelerations wrenches;
      if (r.1 <? 0)%Z
      then Some (false, torques, [call; LogError TorqueComputationFailed])
      else Some (true, r.2 <$> seq 0 (num_joints_ s), [call])
  end.

(** The vectors [getMaxPayload] and [getPayloadTorques] start from. *)
Definition zeros (s : DynamicsSolver) : list float :=
  replicate (num_joints_ s) 0%float.
Definition no_wrenches (s : DynamicsSolver) : list geometry_msgs.Wrench :=
  replicate (num_segments_ s) geometry_msgs.Wrench_zero.

(** The wrench of the tip segment: the force [(0, 0, fz)] and the zero torque,
    both taken through [transform]. *)
Definition tip_wrench (transform : Eigen.Isometry3d) (fz : float) : geometry_msgs.Wrench :=
  {| geometry_msgs.force :=
       transformVector transform
         {| geometry_msgs.x := 0; geometry_msgs.y := 0; geometry_msgs.z := fz |};
     geometry_msgs.torque := transformVector transform geometry_msgs.Vector3_zero |}.

(** Zero on every segment but the last, which carries [tip_wrench]. *)
Definition tip_wrenches (s : DynamicsSolver) (transform : Eigen.Isometry3d) (fz : float)
  : list geometry_msgs.Wrench :=
  replicate (num_segments_ s - 1) geometry_msgs.Wrench_zero ++ [tip_wrench transform fz].

(** The transform tip⁻¹·base read from a robot state. *)
Definition tip_to_base (s : DynamicsSolver) (st : RobotState) : Eigen.Isometry3d :=
  Eigen.mul (Eigen.inverse (getFrameTransform st (tip_name_ s)))
            (getFrameTransform st (base_name_ s)).

(** [limit[i]], where the limit vector has an entry. *)
Definition limit (s : DynamicsSolver) (i : nat) : float :=
  default 0%float (max_torques_ s !! i).

(** [|zeroTorques[i]| >= limit[i]] *)
Definition gravity_saturated (s : DynamicsSolver) (zero_torques : nat -> float) (i : nat)
  : bool :=
  double.ge (double.fabs (zero_torques i)) (limit s i).

(** The payload capacity of joint [i], in force units. *)
Definition capacity (s : DynamicsSolver) (zero_torques unit_torques : nat -> float)
    (i : nat) : float :=
  payload_joint (limit s i) (zero_torques i) (unit_torques i).

(** Joint [k] is a binding joint: a joint of the chain whose capacity no
    other joint's capacity is below. *)
Definition binding_joint (s : DynamicsSolver) (zero_torques unit_torques : nat -> float)
    (k : nat) : Prop :=
  k < num_joints_ s /\
  forall i, i < num_joints_ s ->
    double.lt (capacity s zero_torques unit_torques i)
              (capacity s zero_torques unit_torques k) = false.

(** A vector rotated by a rotation matrix. *)
Definition rotate (r : Eigen.Matrix3d) (v : geometry_msgs.Vector3) : geometry_msgs.Vector3 :=
  let p := Eigen.mat_vec r {| Eigen.x := geometry_msgs.x v;
                              Eigen.y := geometry_msgs.y v;
                              Eigen.z := geometry_msgs.z v |} in
  {| geometry_msgs.x := Eigen.x p; geometry_msgs.y := Eigen.y p; geometry_msgs.z := Eigen.z p |}.

(** Every component is [+0.0] or [-0.0]. *)
Definition zero_vector (v : geometry_msgs.Vector3) : bool :=
  is_zero (geometry_msgs.x v) && is_zero (geometry_msgs.y v) && is_zero (geometry_msgs.z v).

(** The diagnostic of the first precondition of [computePayloadTorques] that
    fails: validity, the length of the angles, the length of the output. *)
Definition payload_torques_diagnostic (s : DynamicsSolver) (joint_angles : list float)
  : Event :=
  if negb (valid s) then LogDebug NotConstructed
  else if negb (bool_decide (length joint_angles = num_joints_ s))
  then LogError (JointAnglesSize (num_joints_ s))
  else LogError (JointTorquesSize (num_joints_ s)).

(** A permanently invalid solver: in whatever world it is, every query fails
    at once, with the diagnostic of an unconstructed solver as the only event,
    its outputs and the solver untouched, and there is no torque limit. *)
Definition permanently_invalid (s : DynamicsSolver) : Prop :=
  forall w : World, self w = s ->
    getMaxTorques w = Returns [] w /\
    (forall a v c wr t,
       getTorques a v c wr t w = Returns (false, t) (record w [LogDebug NotConstructed])) /\
    (forall a payload joint_saturated,
       getMaxPayload a payload joint_saturated w
       = Returns (false, payload, joint_saturated) (record w [LogDebug NotConstructed])) /\
    (forall a payload t,
       getPayloadTorques a payload t w
       = Returns (false, t) (record w [LogDebug NotConstructed])).

(** The structural problems of a group: it is not a chain, it has a mimic
    joint, its root joint has no parent link, or no tree, or no chain from the
    base link to the tip link, can be built. *)
Definition structural_problem (robot_model : moveit_core.RobotModel)
    (group : moveit_core.JointModelGroup) : Prop :=
  moveit_core.isChain group = false \/
  moveit_core.getMimicJointModels group ≠ [] \/
  exists joint rest,
    moveit_core.getJointRoots group = joint :: rest /\
    (moveit_core.parent_link_model joint = None \/
     exists parent tip,
       moveit_core.parent_link_model joint = Some parent /\
       last (moveit_core.getLinkModelNames group) = Some tip /\
       (treeFromUrdfModel (moveit_core.getURDF robot_model) = None \/
        exists tree,
          treeFromUrdfModel (moveit_core.getURDF robot_model) = Some tree /\
          getChain tree (moveit_core.link_name parent) tip = None)).

End Solver.

Arguments Returns {ext A} a w.
Arguments Undefined {ext A}.

(** ** A small robot to run the solver on

    Collaborators simple enough to evaluate: the tree is the URDF's joints,
    a chain is the list of the joints from the base link to the tip link, the
    robot state is the vector of joint positions with every frame at the
    identity, and the torque of joint [i] is [-g_z / 10 + q_i * f_z], where
    [f_z] is the force along z on the last segment. *)

Module toy.
Definition moves (j : urdf.Joint) : bool :=
  match urdf.type j with
  | urdf.REVOLUTE | urdf.CONTINUOUS | urdf.PRISMATIC => true
  | _ => false
  end.

Fixpoint walk (fuel : nat) (joints : list urdf.Joint) (base tip : string)
    (acc : list urdf.Joint) : option (list urdf.Joint) :=
  if bool_decide (tip = base) then Some acc
  else
    match fuel with
    | O => None
    | S fuel' =>
        j ← list_find (fun j => urdf.child_link_name j = tip) joints;
        walk fuel' joints base (urdf.parent_link_name j.2) (j.2 :: acc)
    end.

Definition tree_joints (m : urdf.ModelInterface) : list urdf.Joint :=
  (urdf.joints_ m).*2.

(** The Euclidean norm of the gravity vector. *)
Definition norm (v : KDL.Vector) : float :=
  sqrt (KDL.x v * KDL.x v + KDL.y v * KDL.y v + KDL.z v * KDL.z v)%float.

Definition identity : Eigen.Isometry3d :=
  {| Eigen.linear := Eigen.Identity3;
     Eigen.translation := {| Eigen.x := 0; Eigen.y := 0; Eigen.z := 0 |} |}.

Definition tip_force_z (f_ext : list KDL.Wrench) : float :=
  match last f_ext with
  | Some w => KDL.z (KDL.force w)
  | None => 0%float
  end.

Definition solve (chain : list urdf.Joint) (gravity : KDL.Vector)
    (q qdot qdotdot : list float) (f_ext : list KDL.Wrench) : Z * (nat -> float) :=
  let nj := length (filter (fun j => moves j = true) chain) in
  if bool_decide (length q = nj ∧ length qdot = nj ∧ length qdotdot = nj
                  ∧ length f_ext = length chain)
  then (0%Z, fun i => (- KDL.z gravity / 10 + default 0 (q !! i) * tip_force_z f_ext)%float)
  else ((-4)%Z, fun _ => 0%float).

Definition collaborators : Collaborators :=
  {| RobotState := list float;
     RobotState_new := fun _ => [];
     setToDefaultValues := fun st => st;
     setJointGroupPositions := fun _ _ joint_angles => joint_angles;
     getFrameTransform := fun _ _ => identity;
     Tree := list urdf.Joint;
     Chain := list urdf.Joint;
     Chain_empty := [];
     treeFromUrdfModel := fun m =>
       if bool_decide (tree_joints m = []) then None else Some (tree_joints m);
     getChain := fun tree base tip => walk (length tree) tree base tip [];
     getNrOfJoints := fun chain => length (filter (fun j => moves j = true) chain);
     getNrOfSegments := fun chain => length chain;
     Vector_Norm := norm;
     CartToJnt := solve |}.

Definition joint (n : string) (t : urdf.JointType) (parent child : string)
    (effort : option float) : urdf.Joint :=
  {| urdf.name := n; urdf.type := t;
     urdf.parent_link_name := parent; urdf.child_link_name := child;
     urdf.limits :=
       (fun e => {| urdf.lower := (-3)%float; urdf.upper := 3%float;
                    urdf.effort := e; urdf.velocity := 1%float |}) <$> effort |}.

Definition model_of (joints : list urdf.Joint) : urdf.ModelInterface :=
  {| urdf.joints_ := (fun j => (urdf.name j, j)) <$> joints |}.

Definition group (n : string) (chain : bool) (mimic : list moveit_core.JointModel)
    (root_parent : option string) (links joints : list string)
  : moveit_core.JointModelGroup :=
  {| moveit_core.group_name := n;
     moveit_core.isChain := chain;
     moveit_core.getMimicJointModels := mimic;
     moveit_core.getJointRoots :=
       match joints with
       | [] => []
       | j :: _ =>
           [ {| moveit_core.joint_name := j;
                moveit_core.parent_link_model :=
                  (fun l => {| moveit_core.link_name := l |}) <$> root_parent |} ]
       end;
     moveit_core.getLinkModelNames := links;
     moveit_core.getJointModelNames := joints |}.

Definition arm_group : moveit_core.JointModelGroup :=
  group "arm" true [] (Some "base") ["l1"; "l2"] ["j1"; "j2"].
Definition both_group : moveit_core.JointModelGroup :=
  group "both" false [] (Some "base") ["l1"; "l2"] ["j1"; "j2"].
Definition long_arm_group : moveit_core.JointModelGroup :=
  group "arm" true [] (Some "base") ["l1"; "l2"; "l3"] ["j1"; "j2"; "j3"].

(** Two revolute joints, [base -j1-> l1 -j2-> l2], rated 10 N·m each. The
    groups: [arm] is the chain; [both] is not a chain; [coupled] has a mimic
    joint; [floating] has a root joint without a parent link; [detached]
    ends at a link the URDF does not have. *)
Definition robot : moveit_core.RobotModel :=
  {| moveit_core.getURDF :=
       model_of [ joint "j1" urdf.REVOLUTE "base" "l1" (Some 10%float);
                  joint "j2" urdf.REVOLUTE "l1" "l2" (Some 10%float) ];
     moveit_core.joint_model_group_map_ :=
       [ ("arm", arm_group);
         ("both", both_group);
         ("coupled",
           group "coupled" true
             [ {| moveit_core.joint_name := "j2"; moveit_core.parent_link_model := None |} ]
             (Some "base") ["l1"; "l2"] ["j1"; "j2"]);
         ("floating", group "floating" true [] None ["l1"; "l2"] ["j1"; "j2"]);
         ("detached", group "detached" true [] (Some "base") ["l1"; "l9"] ["j1"; "j2"]) ] |}.

(** A robot whose URDF has no joint at all: no tree can be built. *)
Definition bare_robot : moveit_core.RobotModel :=
  {| moveit_core.getURDF := model_of [];
     moveit_core.joint_model_group_map_ :=
       [ ("arm", group "arm" true [] (Some "base") ["l1"] ["j1"]) ] |}.

(** The same arm with a fixed joint between the two revolute ones:
    [base -j1-> l1 -j2 (fixed)-> l2 -j3-> l3]; [j1] is rated 10 N·m and [j3]
    30 N·m. *)
Definition robot_with_fixed_joint : moveit_core.RobotModel :=
  {| moveit_core.getURDF :=
       model_of [ joint "j1" urdf.REVOLUTE "base" "l1" (Some 10%float);
                  joint "j2" urdf.FIXED "l1" "l2" None;
                  joint "j3" urdf.REVOLUTE "l2" "l3" (Some 30%float) ];
     moveit_core.joint_model_group_map_ := [ ("arm", long_arm_group) ] |}.

Definition garbage : Indeterminate :=
  {| indet_num_joints := 7; indet_num_segments := 9; indet_gravity := nan |}.

Definition vector3 (a b c : float) : geometry_msgs.Vector3 :=
  {| geometry_msgs.x := a; geometry_msgs.y := b; geometry_msgs.z := c |}.

Definition world_of (o : Outcome (ext := collaborators) unit) : World :=
  match o with
  | Returns _ w => w
  | Undefined => {| self := uninitialized garbage; trace := [] |}
  end.

(** The arm under a gravity of 10 along -z. *)
Definition arm : World :=
  world_of (construct garbage robot "arm" (vector3 0 0 (-10))).

(** The arm built with a zero gravity vector. *)
Definition weightless_arm : World :=
  world_of (construct garbage robot "arm" (vector3 0 0 0)).

Definition arm_with_fixed_joint : World :=
  world_of (construct garbage robot_with_fixed_joint "arm" (vector3 0 0 (-10))).

(** The robot state of a fresh solver. *)
Definition rest : RobotState (Collaborators := collaborators) := [].

(** What the solver of [w] answers for the angles [a] at rest under the
    wrenches [wr]. *)
Definition answer (w : World (ext := collaborators)) (a : list float)
    (wr : list geometry_msgs.Wrench)
  : Z * (nat -> float) :=
  default (0%Z, fun _ => 0%float)
    (solve_for (self w) a (zeros (self w)) (zeros (self w)) wr).

(** The wrenches of a unit force at the tip, the robot state at [a]. *)
Definition unit_wrenches (w : World (ext := collaborators))
    (g : moveit_core.JointModelGroup) (a : list float)
  : list geometry_msgs.Wrench :=
  tip_wrenches (self w)
    (tip_to_base (self w) (setJointGroupPositions rest g a)) 1.

(** An inverse dynamics solver that refuses a tip force above 0.5 N, and the
    arm built on it. *)
Definition strict_solve (chain : list urdf.Joint) (gravity : KDL.Vector)
    (q qdot qdotdot : list float) (f_ext : list KDL.Wrench) : Z * (nat -> float) :=
  if (0.5 <? tip_force_z f_ext)%float then ((-1)%Z, fun _ => 0%float)
  else solve chain gravity q qdot qdotdot f_ext.

Definition strict_collaborators : Collaborators :=
  {| RobotState := list float;
     RobotState_new := fun _ => [];
     setToDefaultValues := fun st => st;
     setJointGroupPositions := fun _ _ joint_angles => joint_angles;
     getFrameTransform := fun _ _ => identity;
     Tree := list urdf.Joint;
     Chain := list urdf.Joint;
     Chain_empty := [];
     treeFromUrdfModel := fun m =>
       if bool_decide (tree_joints m = []) then None else Some (tree_joints m);
     getChain := fun tree base tip => walk (length tree) tree base tip [];
     getNrOfJoints := fun chain => length (filter (fun j => moves j = true) chain);
     getNrOfSegments := fun chain => length chain;
     Vector_Norm := norm;
     CartToJnt := strict_solve |}.

Definition strict_arm : World (ext := strict_collaborators) :=
  match construct garbage robot "arm" (vector3 0 0 (-10)) with
  | Returns _ w => w
  | Undefined => {| self := uninitialized garbage; trace := [] |}
  end.

Definition strict_rest : RobotState (Collaborators := strict_collaborators) := [].

Definition strict_answer (w : World (ext := strict_collaborators)) (a : list float)
    (wr : list geometry_msgs.Wrench) : Z * (nat -> float) :=
  default (0%Z, fun _ => 0%float)
    (solve_for (self w) a (zeros (self w)) (zeros (self w)) wr).

(** The world a successful payload query leaves: the robot state at [a] and
    the two solves in the trace. *)
Definition after_payload_query (w : World (ext := collaborators))
    (g : moveit_core.JointModelGroup) (a : list float) : World :=
  {| self := set_state_ (Some (setJointGroupPositions rest g a)) (self w);
     trace := trace w ++
       [solve_event a (zeros (self w)) (zeros (self w)) (no_wrenches (self w));
        solve_event a (zeros (self w)) (zeros (self w)) (unit_wrenches w g a)] |}.
End toy.

(** * Properties *)

(** ** Doubles: the order [<] and the zeros *)

Module double_facts.
Ltac sf_cases :=
  repeat match goal with
  | b : bool |- _ => destruct b
  | x : spec_float |- _ => destruct x
  end.

Ltac sf_order :=
  repeat match goal with
  | |- context [Z.compare ?a ?b] => destruct (Z.compare_spec a b)
  | |- context [Pos.compare_cont Eq ?a ?b] =>
      change (Pos.compare_cont Eq a b) with (Pos.compare a b);
      destruct (Pos.compare_spec a b)
  end; simpl; try discriminate; try reflexivity; try lia.

Lemma SFltb_irrefl x : SFltb x x = false.
Proof. unfold SFltb, SFcompare. sf_cases; sf_order. Qed.

Lemma SFltb_trans x y z :
  SFltb x y = true -> SFltb y z = true -> SFltb x z = true.
Proof.
  unfold SFltb, SFcompare.
  sf_cases; simpl; try discriminate; try reflexivity; sf_order.
Qed.

Lemma SFleb_ltb_trans x y z :
  SFleb x y = true -> SFltb y z = true -> SFltb x z = true.
Proof.
  unfold SFleb, SFltb, SFcompare.
  sf_cases; simpl; try discriminate; try reflexivity; sf_order.
Qed.

Lemma lt_irrefl x : double.lt x x = false.
Proof. unfold double.lt. rewrite ltb_spec. apply SFltb_irrefl. Qed.

Lemma lt_trans x y z :
  double.lt x y = true -> double.lt y z = true -> double.lt x z = true.
Proof. unfold double.lt. rewrite !ltb_spec. apply SFltb_trans. Qed.

Lemma le_lt_trans x y z :
  (x <=? y)%float = true -> double.lt y z = true -> double.lt x z = true.
Proof. unfold double.lt. rewrite !ltb_spec, leb_spec. apply SFleb_ltb_trans. Qed.

(** A finite double is a zero or a finite number: not an infinity, not a NaN. *)
Lemma Prim2SF_finite x :
  is_finite x = true ->
  (exists s, Prim2SF x = S754_zero s) \/ (exists s m e, Prim2SF x = S754_finite s m e).
Proof.
  unfold is_finite, Prim2SF. destruct (is_nan x); [discriminate|]. simpl.
  destruct (is_infinity x); [discriminate|]. intros _.
  destruct (is_zero x); [left; eauto|].
  destruct (Z.frexp x) as [r e]. destruct (shr_fexp _ _ _ _ _) as [sh e2].
  destruct (shr_m sh); [left|right|left]; eauto.
Qed.

Lemma mul_zero_r x :
  is_finite x = true -> exists s, Prim2SF (x * 0) = S754_zero s.
Proof.
  intros Hx. rewrite mul_spec. change (Prim2SF 0) with (S754_zero false).
  destruct (Prim2SF_finite x Hx) as [[s ->]|(s & m & e & ->)]; simpl; eauto.
Qed.

Lemma add_zeros x y s1 s2 :
  Prim2SF x = S754_zero s1 -> Prim2SF y = S754_zero s2 ->
  exists s, Prim2SF (x + y) = S754_zero s.
Proof. intros Hx Hy. rewrite add_spec, Hx, Hy. destruct s1, s2; simpl; eauto. Qed.

Lemma is_zero_intro x s : Prim2SF x = S754_zero s -> is_zero x = true.
Proof. intros Hx. unfold is_zero. rewrite FloatAxioms.eqb_spec, Hx. reflexivity. Qed.

(** Dividing by [0.0] gives an infinity or a NaN, whatever is divided. *)
Lemma div_zero_not_finite x : is_finite (x / 0) = false.
Proof.
  assert (H : Prim2SF (x / 0) = S754_nan \/ exists s, Prim2SF (x / 0) = S754_infinity s).
  { rewrite div_spec. change (Prim2SF 0) with (S754_zero false).
    destruct (Prim2SF x); simpl; eauto. }
  unfold is_finite, is_nan, is_infinity.
  rewrite !FloatAxioms.eqb_spec, abs_spec.
  change (Prim2SF infinity) with (S754_infinity false).
  destruct H as [->|[s ->]]; simpl; [reflexivity|]. destruct s; reflexivity.
Qed.
End double_facts.

(** ** Loops over vectors *)

Section Loops.
Context {A : Type}.

Lemma vec_set_Some (v : list A) (i : nat) (a : A) :
  i < length v -> vec_set v i a = Some (<[i:=a]> v).
Proof. intros Hi. unfold vec_set. destruct (decide (i < length v)); [done|lia]. Qed.

Lemma take_S_insert (v : list A) (i : nat) (a : A) :
  i < length v -> take (S i) (<[i:=a]> v) = take i v ++ [a].
Proof.
  intros Hi. rewrite (take_S_r _ _ a) by (by apply list_lookup_insert_eq).
  by rewrite take_insert_ge by lia.
Qed.

(** A loop that stores [vals !! i] at index [i] of a vector ends with the
    part of [vals] it went over. *)
Lemma for_loop_fill (body : nat -> list A -> option (list A)) (vals : list A) :
  forall count first dst,
    length dst = first + count -> length vals = first + count ->
    (forall i d, first <= i < first + count ->
       body i d = a ← vals !! i; vec_set d i a) ->
    for_loop first count body dst = Some (take first dst ++ drop first vals).
Proof.
  induction count as [|count IH]; intros first dst Hd Hv Hb; simpl.
  - rewrite take_ge, drop_ge by lia. by rewrite app_nil_r.
  - destruct (lookup_lt_is_Some_2 vals first) as [a Ha]; [lia|].
    rewrite Hb by lia. rewrite Ha. simpl.
    rewrite vec_set_Some by lia. simpl.
    rewrite IH.
    + rewrite take_S_insert by lia.
      rewrite (drop_S vals a first Ha). by rewrite <- app_assoc.
    + rewrite length_insert. lia.
    + lia.
    + intros i d Hi. apply Hb. lia.
Qed.

Lemma for_loop_fill_all (body : nat -> list A -> option (list A)) (vals dst : list A) :
  length dst = length vals ->
  (forall i d, i < length vals -> body i d = a ← vals !! i; vec_set d i a) ->
  for_loop 0 (length vals) body dst = Some vals.
Proof.
  intros Hd Hb. rewrite (for_loop_fill body vals); [done|lia|lia|].
  intros i d Hi. apply Hb. lia.
Qed.
End Loops.

(** ** getTorques *)

Section GetTorques.
Context {ext : Collaborators}.

Lemma copy_joint_state_loop (a v c : list float) :
  forall count first ka kv kc,
    length a = first + count -> length v = first + count -> length c = first + count ->
    length ka = first + count -> length kv = first + count -> length kc = first + count ->
    for_loop first count (copy_joint_state a v c) (ka, kv, kc)
    = Some (take first ka ++ drop first a,
            take first kv ++ drop first v,
            take first kc ++ drop first c).
Proof.
  induction count as [|count IH]; intros first ka kv kc Ha Hv Hc Hka Hkv Hkc; simpl.
  - rewrite !take_ge, !drop_ge by lia. by rewrite !app_nil_r.
  - destruct (lookup_lt_is_Some_2 a first) as [xa Hxa]; [lia|].
    destruct (lookup_lt_is_Some_2 v first) as [xv Hxv]; [lia|].
    destruct (lookup_lt_is_Some_2 c first) as [xc Hxc]; [lia|].
    rewrite Hxa, Hxv, Hxc. simpl.
    rewrite !vec_set_Some by lia. simpl.
    rewrite IH by (rewrite ?length_insert; lia).
    rewrite !take_S_insert by lia.
    rewrite (drop_S a xa first Hxa), (drop_S v xv first Hxv), (drop_S c xc first Hxc).
    by rewrite <- !app_assoc.
Qed.

Lemma copy_wrench_loop (wrenches : list geometry_msgs.Wrench) :
  for_loop 0 (length wrenches) (copy_wrench wrenches)
    (replicate (length wrenches) KDL.Wrench_zero)
  = Some (to_kdl_wrench <$> wrenches).
Proof.
  rewrite <- (length_fmap to_kdl_wrench wrenches) at 1 2.
  apply for_loop_fill_all.
  - by rewrite length_replicate.
  - intros i d _. unfold copy_wrench. rewrite list_lookup_fmap.
    by destruct (wrenches !! i).
Qed.

Lemma store_torques_loop (kdl_torques : nat -> float) (torques : list float) :
  for_loop 0 (length torques) (fun i t => vec_set t i (kdl_torques i)) torques
  = Some (kdl_torques <$> seq 0 (length torques)).
Proof.
  set (vals := kdl_torques <$> seq 0 (length torques)).
  assert (Hlen : length vals = length torques)
    by (unfold vals; by rewrite length_fmap, length_seq).
  rewrite <- Hlen at 1. apply for_loop_fill_all; [done|].
  intros i d Hi. unfold vals. rewrite list_lookup_fmap.
  rewrite lookup_seq_lt by lia. done.
Qed.

(** Past its preconditions, [getTorques] is one solve on the caller's
    vectors: it fails on a negative status, and otherwise stores the torque of
    every joint. *)
Lemma getTorques_run (w : World) (a v c : list float)
    (wr : list geometry_msgs.Wrench) (t : list float) chain gravity :
  valid (self w) = true ->
  length a = num_joints_ (self w) -> length v = num_joints_ (self w) ->
  length c = num_joints_ (self w) -> length wr = num_segments_ (self w) ->
  length t = num_joints_ (self w) ->
  chain_id_solver_ (self w) = Some (chain, gravity) ->
  getTorques a v c wr t w =
    let r := CartToJnt chain gravity a v c (to_kdl_wrench <$> wr) in
    if (r.1 <? 0)%Z
    then Returns (false, t) (record w [solve_event a v c wr; LogError TorqueComputationFailed])
    else Returns (true, r.2 <$> seq 0 (num_joints_ (self w))) (record w [solve_event a v c wr]).
Proof.
  intros Hvalid Ha Hv Hc Hwr Ht Hsolver.
  unfold getTorques, valid in *. unfold mbind, M_bind, this at 1.
  destruct (joint_model_group_ (self w)) as [group|]; [|done].
  repeat (destruct (decide _) as [Hne|_]; [congruence|]).
  rewrite <- Ha at 1.
  rewrite (copy_joint_state_loop a v c (length a) 0)
    by (rewrite ?length_replicate; lia).
  simpl. rewrite !drop_0.
  rewrite <- Hwr at 1 2. rewrite copy_wrench_loop.
  rewrite Hsolver. simpl.
  destruct (CartToJnt chain gravity a v c (to_kdl_wrench <$> wr)) as [status kdl_torques].
  simpl. destruct (status <? 0)%Z; simpl.
  - unfold record. simpl. by rewrite <- app_assoc.
  - rewrite <- Ht at 1. rewrite store_torques_loop. simpl. by rewrite Ht.
Qed.

Lemma precondition_failure_None (s : DynamicsSolver) (a v c : list float)
    (wr : list geometry_msgs.Wrench) (t : list float) :
  precondition_failure s a v c wr t = None ->
  valid s = true /\ length a = num_joints_ s /\ length v = num_joints_ s /\
  length c = num_joints_ s /\ length wr = num_segments_ s /\ length t = num_joints_ s.
Proof.
  unfold precondition_failure.
  destruct (valid s); [|discriminate]. simpl.
  repeat (case_bool_decide; simpl; [|discriminate]). done.
Qed.

Lemma getTorques_rejects (w : World) (a v c : list float)
    (wr : list geometry_msgs.Wrench) (t : list float) (e : Event) :
  precondition_failure (self w) a v c wr t = Some e ->
  getTorques a v c wr t w = Returns (false, t) (record w [e]).
Proof.
  unfold precondition_failure, getTorques, valid.
  unfold mbind, M_bind, this at 1.
  destruct (joint_model_group_ (self w)); simpl.
  - repeat (case_bool_decide as Hlen; simpl;
            [match type of Hlen with
             | ?x = ?y => destruct (decide (x ≠ y)); [congruence|clear Hlen]
             end
            |destruct (decide _); [|done]; intros [= <-]; reflexivity]).
    discriminate.
  - intros [= <-]. reflexivity.
Qed.

(** The embedding of [getTorques] refines [computeTorques_spec]. *)
Lemma getTorques_refines (w : World) (a v c : list float)
    (wr : list geometry_msgs.Wrench) (t : list float) :
  getTorques a v c wr t w =
    match computeTorques_spec (self w) a v c wr t with
    | Some (ok, t', es) => Returns (ok, t') (record w es)
    | None => Undefined
    end.
Proof.
  unfold computeTorques_spec.
  destruct (precondition_failure (self w) a v c wr t) as [e|] eqn:Hpre.
  - by apply getTorques_rejects.
  - apply precondition_failure_None in Hpre as (Hvalid & Ha & Hv & Hc & Hwr & Ht).
    unfold solve_for.
    destruct (chain_id_solver_ (self w)) as [[chain gravity]|] eqn:Hsolver; simpl.
    + rewrite (getTorques_run w a v c wr t chain gravity) by done. simpl.
      by destruct (_ <? 0)%Z.
    + unfold getTorques, valid in *. unfold mbind, M_bind, this at 1.
      destruct (joint_model_group_ (self w)); [|done].
      repeat (destruct (decide _) as [Hne|_]; [congruence|]).
      rewrite <- Ha at 1.
      rewrite (copy_joint_state_loop a v c (length a) 0)
        by (rewrite ?length_replicate; lia).
      simpl. rewrite <- Hwr at 1 2. rewrite copy_wrench_loop.
      simpl. by rewrite Hsolver.
Qed.

(** C3. [computeTorques] fails exactly when the solver is invalid, or a
    vector has the wrong length (angles, velocities, accelerations and the
    output buffer of length [jointCount], wrenches of length [segmentCount]),
    or the inverse dynamics solver answers a negative status. The checks come
    in the order of [precondition_failure], validity first: when one fails,
    its diagnostic is the only event and the solver is not run. On every
    failure the output buffer is the caller's, unwritten. *)
Theorem getTorques_fails_exactly (w : World) (a v c : list float)
    (wr : list geometry_msgs.Wrench) (t : list float) :
  constructed (self w) = true ->
  exists (ok : bool) (t' : list float) (es : list Event),
    getTorques a v c wr t w = Returns (ok, t') (record w es) /\
    (ok = false <->
       valid (self w) = false \/
       length a ≠ num_joints_ (self w) \/
       length v ≠ num_joints_ (self w) \/
       length c ≠ num_joints_ (self w) \/
       length wr ≠ num_segments_ (self w) \/
       length t ≠ num_joints_ (self w) \/
       exists r, solve_for (self w) a v c wr = Some r /\ (r.1 < 0)%Z) /\
    (ok = false -> t' = t) /\
    (forall e, precondition_failure (self w) a v c wr t = Some e ->
       ok = false /\ es = [e]) /\
    (precondition_failure (self w) a v c wr t = None ->
       exists r, solve_for (self w) a v c wr = Some r /\
         es = solve_event a v c wr ::
              (if (r.1 <? 0)%Z then [LogError TorqueComputationFailed] else [])).
Proof.
  intros Hctor. rewrite getTorques_refines. unfold computeTorques_spec.
  destruct (precondition_failure (self w) a v c wr t) as [e|] eqn:Hpre.
  - exists false, t, [e]. split; [done|]. split; [|split; [done|split]].
    + split; [intros _|done].
      revert Hpre. unfold precondition_failure.
      destruct (valid (self w)); simpl; [|by left].
      repeat (case_bool_decide; simpl; [|tauto]). discriminate.
    + by intros e' [= <-].
    + discriminate.
  - pose proof Hpre as Hnone.
    apply precondition_failure_None in Hpre as (Hvalid & Ha & Hv & Hc & Hwr & Ht).
    assert (Hsome : exists r, solve_for (self w) a v c wr = Some r).
    { unfold solve_for, constructed, valid in *.
      destruct (joint_model_group_ (self w)); [|done].
      destruct (chain_id_solver_ (self w)) as [[chain gravity]|]; [|done].
      simpl. eauto. }
    destruct Hsome as [r Hr]. rewrite Hr. simpl.
    destruct (r.1 <? 0)%Z eqn:Hstatus.
    + exists false, t, [solve_event a v c wr; LogError TorqueComputationFailed].
      split; [done|]. split; [|split; [done|split; [done|]]].
      * split; [intros _|done]. do 6 right. exists r. split; [done|lia].
      * intros _. exists r. by rewrite Hstatus.
    + exists true, (r.2 <$> seq 0 (num_joints_ (self w))), [solve_event a v c wr].
      split; [done|]. split; [|split; [done|split; [done|]]].
      * split; [done|]. intros H. exfalso.
        destruct H as [H|[H|[H|[H|[H|[H|(r' & Hr' & Hneg)]]]]]]; try congruence.
        assert (r' = r) as -> by congruence. lia.
      * intros _. exists r. by rewrite Hstatus.
Qed.

(** C7. [computeTorques] leaves the solver object as it was, the robot state
    it points to included, and its answer depends on the solver and the
    arguments only: the same call on a solver in the same state returns the
    same flag and the same torques. *)
Theorem getTorques_leaves_solver (w w' : World) (a v c : list float)
    (wr : list geometry_msgs.Wrench) (t : list float) (r : bool * list float) :
  getTorques a v c wr t w = Returns r w' ->
  self w' = self w /\ state_ (self w') = state_ (self w) /\
  forall w2 : World, self w2 = self w ->
    exists w2', getTorques a v c wr t w2 = Returns r w2' /\ self w2' = self w2.
Proof.
  rewrite getTorques_refines.
  destruct (computeTorques_spec (self w) a v c wr t) as [[[ok t'] es]|] eqn:Hspec;
    [|discriminate].
  intros [= <- <-]. split; [done|]. split; [done|].
  intros w2 Hw2. exists (record w2 es).
  rewrite getTorques_refines, Hw2, Hspec. done.
Qed.

End GetTorques.

(** ** Constructor *)

Section Constructor.
Context {ext : Collaborators}.

Lemma invalid_is_permanent (s : DynamicsSolver) :
  joint_model_group_ s = None -> max_torques_ s = [] -> permanently_invalid s.
Proof.
  intros Hgroup Hmax w Hw. subst s. repeat split.
  - unfold getMaxTorques, mbind, M_bind, this. simpl. by rewrite Hmax.
  - intros. apply getTorques_rejects. unfold precondition_failure, valid.
    by rewrite Hgroup.
  - intros. unfold getMaxPayload, mbind, M_bind, this. by rewrite Hgroup.
  - intros. unfold getPayloadTorques, mbind, M_bind, this. by rewrite Hgroup.
Qed.

Lemma push_back_limits (f : string -> float) (names : list string) :
  forall w : World,
    for_each names (fun n => assign (fun o => set_max_torques_ (max_torques_ o ++ [f n]) o)) w
    = Returns tt {| self := set_max_torques_ (max_torques_ (self w) ++ (f <$> names)) (self w);
                    trace := trace w |}.
Proof.
  induction names as [|n names IH]; intros [s tr]; simpl.
  - destruct s. unfold set_max_torques_. simpl. by rewrite app_nil_r.
  - unfold mbind, M_bind, assign at 1. simpl. rewrite IH. simpl.
    unfold set_max_torques_. simpl. by rewrite <- app_assoc.
Qed.

(** A constructor that meets a structural problem leaves a permanently
    invalid solver. *)
Lemma construct_rejects (i : Indeterminate) (robot_model : moveit_core.RobotModel)
    (name : string) (gravity_vector : geometry_msgs.Vector3)
    (group : moveit_core.JointModelGroup) :
  moveit_core.getJointModelGroup robot_model name = Some group ->
  structural_problem robot_model group ->
  exists w0, construct i robot_model name gravity_vector = Returns tt w0 /\
             joint_model_group_ (self w0) = None /\ max_torques_ (self w0) = [].
Proof.
  intros Hgroup Hproblem.
  unfold construct, DynamicsSolver_ctor.
  unfold mbind, M_bind, assign at 1 2, this at 1. simpl. rewrite Hgroup.
  destruct (moveit_core.isChain group) eqn:Hchain; simpl; [|eauto].
  case_bool_decide as Hmimic; simpl; [|eauto].
  destruct Hproblem as [?|[?|(joint & rest & Hroots & Hproblem)]]; [congruence|done|].
  rewrite Hroots. simpl.
  destruct Hproblem as [Hparent|(parent & tip & Hparent & Htip & Hproblem)];
    rewrite Hparent; simpl; [eauto|].
  rewrite Htip. simpl.
  destruct Hproblem as [Htree|(tree & Htree & Hnochain)]; rewrite Htree; simpl; [eauto|].
  rewrite Hnochain. simpl. eauto.
Qed.

(** A constructor that runs to its end: the limits are the effort limits of
    the joint names of the group, in their order, and the joint count is the
    one of the KDL chain. *)
Lemma construct_succeeds (i : Indeterminate) (robot_model : moveit_core.RobotModel)
    (name : string) (gravity_vector : geometry_msgs.Vector3) (w0 : World) :
  construct i robot_model name gravity_vector = Returns tt w0 ->
  valid (self w0) = true ->
  exists group chain,
    moveit_core.getJointModelGroup robot_model name = Some group /\
    joint_model_group_ (self w0) = Some group /\
    kdl_chain_ (self w0) = chain /\
    num_joints_ (self w0) = getNrOfJoints chain /\
    num_segments_ (self w0) = getNrOfSegments chain /\
    max_torques_ (self w0)
    = effort_limit (moveit_core.getURDF robot_model) <$> moveit_core.getJointModelNames group /\
    gravity_ (self w0)
    = Vector_Norm {| KDL.x := geometry_msgs.x gravity_vector;
                     KDL.y := geometry_msgs.y gravity_vector;
                     KDL.z := geometry_msgs.z gravity_vector |} /\
    constructed (self w0) = true.
Proof.
  unfold construct, DynamicsSolver_ctor.
  unfold mbind, M_bind, assign at 1 2, this at 1. simpl.
  destruct (moveit_core.getJointModelGroup robot_model name) as [group|] eqn:Hgroup;
    simpl; [|by intros [= <-]].
  destruct (moveit_core.isChain group); simpl; [|by intros [= <-]].
  case_bool_decide; simpl; [|by intros [= <-]].
  destruct (moveit_core.getJointRoots group !! 0) as [joint|]; simpl; [|done].
  destruct (moveit_core.parent_link_model joint) as [parent|]; simpl; [|by intros [= <-]].
  destruct (last (moveit_core.getLinkModelNames group)) as [tip|]; simpl; [|done].
  destruct (treeFromUrdfModel _) as [tree|]; simpl; [|by intros [= <-]].
  destruct (getChain tree _ tip) as [chain|]; simpl; [|by intros [= <-]].
  rewrite push_back_limits. simpl.
  intros [= <-] _. exists group, chain. simpl. done.
Qed.

(** C5. A solver built on a group with a structural problem (not a chain, a
    mimic joint, a root joint without a parent link, or a tree or chain that
    cannot be built) is permanently invalid: [computeTorques],
    [computeMaxPayload] and [computePayloadTorques] fail on the validity check,
    before any length is looked at and without a solve, and [getMaxTorques]
    returns the empty vector. *)
Theorem structural_problem_invalidates (i : Indeterminate)
    (robot_model : moveit_core.RobotModel) (name : string)
    (gravity_vector : geometry_msgs.Vector3) (group : moveit_core.JointModelGroup) :
  moveit_core.getJointModelGroup robot_model name = Some group ->
  structural_problem robot_model group ->
  exists w0, construct i robot_model name gravity_vector = Returns tt w0 /\
             valid (self w0) = false /\
             permanently_invalid (self w0).
Proof.
  intros Hgroup Hproblem.
  destruct (construct_rejects i robot_model name gravity_vector group Hgroup Hproblem)
    as (w0 & Hrun & Hnull & Hmax).
  exists w0. split; [done|]. split.
  - unfold valid. by rewrite Hnull.
  - by apply invalid_is_permanent.
Qed.

(** C8. A group name the robot model does not have gives a permanently
    invalid solver: the constructor returns at once, every query fails and
    [getMaxTorques] returns the empty vector. *)
Theorem unknown_group_invalidates (i : Indeterminate)
    (robot_model : moveit_core.RobotModel) (name : string)
    (gravity_vector : geometry_msgs.Vector3) :
  moveit_core.getJointModelGroup robot_model name = None ->
  exists w0, construct i robot_model name gravity_vector = Returns tt w0 /\
             trace w0 = [] /\
             valid (self w0) = false /\
             permanently_invalid (self w0).
Proof.
  intros Hgroup.
  unfold construct, DynamicsSolver_ctor.
  unfold mbind, M_bind, assign at 1 2, this at 1. simpl. rewrite Hgroup.
  eexists. split; [reflexivity|]. simpl. split; [done|]. split.
  - done.
  - by apply invalid_is_permanent.
Qed.

End Constructor.

(** ** Payload *)

Section Payload.
Context {ext : Collaborators}.

Lemma lookup_torques (f : nat -> float) (n i : nat) :
  i < n -> (f <$> seq 0 n) !! i = Some (f i).
Proof. intros Hi. rewrite list_lookup_fmap, lookup_seq_lt by done. done. Qed.

Lemma preconditions_hold (s : DynamicsSolver) (a v c t : list float)
    (wr : list geometry_msgs.Wrench) :
  valid s = true -> length a = num_joints_ s -> length v = num_joints_ s ->
  length c = num_joints_ s -> length wr = num_segments_ s ->
  length t = num_joints_ s ->
  precondition_failure s a v c wr t = None.
Proof.
  intros Hvalid Ha Hv Hc Hwr Ht. unfold precondition_failure.
  rewrite Hvalid. simpl. by rewrite !bool_decide_eq_true_2.
Qed.

Lemma length_zeros (s : DynamicsSolver) : length (zeros s) = num_joints_ s.
Proof. apply length_replicate. Qed.

Lemma length_no_wrenches (s : DynamicsSolver) : length (no_wrenches s) = num_segments_ s.
Proof. apply length_replicate. Qed.

Lemma update_back_snoc {A} (f : A -> A) (l : list A) (a : A) :
  update_back f (l ++ [a]) = Some (l ++ [f a]).
Proof. unfold update_back. rewrite last_snoc. simpl. by rewrite removelast_last. Qed.

Lemma apply_tip_force_zero (n : nat) (transform : Eigen.Isometry3d) (fz : float) :
  0 < n ->
  apply_tip_force transform fz (replicate n geometry_msgs.Wrench_zero)
  = Some (replicate (n - 1) geometry_msgs.Wrench_zero ++ [tip_wrench transform fz]).
Proof.
  intros Hn. destruct n as [|n]; [lia|].
  rewrite replicate_S_end. replace (S n - 1) with n by lia.
  unfold apply_tip_force. rewrite update_back_snoc. simpl.
  rewrite update_back_snoc. simpl. rewrite update_back_snoc. done.
Qed.

Lemma length_tip_wrenches (s : DynamicsSolver) (transform : Eigen.Isometry3d) (fz : float) :
  0 < num_segments_ s -> length (tip_wrenches s transform fz) = num_segments_ s.
Proof.
  intros Hn. unfold tip_wrenches. rewrite length_app, length_replicate. simpl. lia.
Qed.

Lemma update_state_run (w : World) (group : moveit_core.JointModelGroup)
    (a : list float) (st : RobotState) :
  state_ (self w) = Some st ->
  update_state_and_get_transform group a w
  = Returns (tip_to_base (self w) (setJointGroupPositions st group a))
      {| self := set_state_ (Some (setJointGroupPositions st group a)) (self w);
         trace := trace w |}.
Proof.
  intros Hst. unfold update_state_and_get_transform, mbind, M_bind, this.
  rewrite Hst. done.
Qed.

(** The loop of lines 246 to 254 returns at the first saturated joint, and
    runs to its end when there is none. *)
Lemma find_saturated_first (zt mt : list float) :
  forall count first,
    first + count <= length zt -> first + count <= length mt ->
    let sat i := double.ge (double.fabs (default 0%float (zt !! i)))
                           (default 0%float (mt !! i)) in
    (exists k, first <= k < first + count /\
               find_saturated first count zt mt = Some (Some k) /\
               sat k = true /\ forall j, first <= j < k -> sat j = false) \/
    (find_saturated first count zt mt = Some None /\
     forall j, first <= j < first + count -> sat j = false).
Proof.
  induction count as [|count IH]; intros first Hz Hm sat; simpl.
  - right. split; [done|]. intros j Hj. lia.
  - destruct (lookup_lt_is_Some_2 zt first) as [z Hzf]; [lia|].
    destruct (lookup_lt_is_Some_2 mt first) as [m Hmf]; [lia|].
    rewrite Hzf, Hmf. simpl.
    destruct (double.ge (double.fabs z) m) eqn:Hsat.
    + left. exists first. split; [lia|]. split; [done|]. split.
      * unfold sat. by rewrite Hzf, Hmf.
      * intros j Hj. lia.
    + assert (Hfirst : sat first = false) by (unfold sat; by rewrite Hzf, Hmf).
      destruct (IH (S first)) as [(k & Hk & Hrun & Hsatk & Hbefore)|[Hrun Hnone]]; [lia|lia| |].
      * left. exists k. split; [lia|]. split; [done|]. split; [done|].
        intros j Hj. destruct (decide (j = first)) as [->|]; [done|]. apply Hbefore. lia.
      * right. split; [done|].
        intros j Hj. destruct (decide (j = first)) as [->|]; [done|]. apply Hnone. lia.
Qed.

(** C2. When the gravity-only solve (zero velocities, accelerations and
    wrenches) succeeds and joint [i] has [|zeroTorques[i]| >= limit[i]],
    [computeMaxPayload] returns success with payload [0.0] and the first such
    joint in chain order. The world it leaves is the one after that single
    solve: one [Solve] event, and the solver, robot state included, as it was. *)
Theorem getMaxPayload_gravity_saturated (w : World) (a : list float)
    (payload : float) (joint_saturated : nat) (r : Z * (nat -> float)) (i : nat) :
  valid (self w) = true ->
  num_joints_ (self w) <= length (max_torques_ (self w)) ->
  length a = num_joints_ (self w) ->
  solve_for (self w) a (zeros (self w)) (zeros (self w)) (no_wrenches (self w)) = Some r ->
  (0 <= r.1)%Z ->
  i < num_joints_ (self w) ->
  gravity_saturated (self w) r.2 i = true ->
  exists k,
    k <= i /\
    gravity_saturated (self w) r.2 k = true /\
    (forall j, j < k -> gravity_saturated (self w) r.2 j = false) /\
    getMaxPayload a payload joint_saturated w
    = Returns (true, 0%float, k)
        (record w [solve_event a (zeros (self w)) (zeros (self w)) (no_wrenches (self w))]).
Proof.
  intros Hvalid Hlimits Ha Hsolve Hstatus Hi Hsat.
  set (n := num_joints_ (self w)) in *.
  set (zt := r.2 <$> seq 0 n).
  assert (Hzt : forall j, j < n -> default 0%float (zt !! j) = r.2 j).
  { intros j Hj. unfold zt. by rewrite lookup_torques. }
  destruct (find_saturated_first zt (max_torques_ (self w)) n 0)
    as [(k & Hk & Hrun & Hsatk & Hbefore)|[_ Hnone]].
  { unfold zt. rewrite length_fmap, length_seq. lia. }
  { lia. }
  - exists k. rewrite Hzt in Hsatk by lia. split.
    + destruct (decide (k <= i)) as [|Hgt]; [done|].
      specialize (Hbefore i ltac:(lia)). rewrite Hzt in Hbefore by lia.
      unfold gravity_saturated, limit in Hsat. congruence.
    + split; [done|]. split.
      * intros j Hj. specialize (Hbefore j ltac:(lia)). by rewrite Hzt in Hbefore by lia.
      * unfold getMaxPayload, valid in *. unfold mbind, M_bind, this at 1.
        destruct (joint_model_group_ (self w)) as [group|] eqn:Hgroup; [|done].
        destruct (decide _) as [Hne|_]; [done|].
        rewrite getTorques_refines. unfold computeTorques_spec.
        fold (zeros (self w)) (no_wrenches (self w)).
        rewrite preconditions_hold
          by (unfold valid; rewrite ?Hgroup, ?length_zeros, ?length_no_wrenches; done).
        rewrite Hsolve. simpl.
        replace (r.1 <? 0)%Z with false by lia. simpl.
        fold n zt. rewrite Hrun. done.
  - specialize (Hnone i ltac:(lia)). rewrite Hzt in Hnone by lia.
    unfold gravity_saturated, limit in Hsat. congruence.
Qed.

(** The loop of lines 271 to 284: the running minimum ends below or at its
    start and below no capacity; the index moves to the first joint whose
    capacity is the minimum, and stays when no capacity is below the start. *)
Lemma min_payload_loop (mt zt tt : list float) :
  forall count first m0 k0,
    first + count <= length mt -> first + count <= length zt ->
    first + count <= length tt ->
    let cap i := payload_joint (default 0%float (mt !! i)) (default 0%float (zt !! i))
                               (default 0%float (tt !! i)) in
    exists m k,
      for_loop first count (min_payload_step mt zt tt) (m0, k0) = Some (m, k) /\
      (forall i, first <= i < first + count -> double.lt (cap i) m = false) /\
      (m = m0 \/ double.lt m m0 = true) /\
      ((m = m0 /\ k = k0) \/
       (first <= k < first + count /\ m = cap k /\ double.lt m m0 = true /\
        forall i, first <= i < k -> (cap i <=? m)%float = false)).
Proof.
  induction count as [|count IH]; intros first m0 k0 Hm Hz Ht cap; simpl.
  - exists m0, k0. split; [done|]. split; [intros; lia|]. split; by left.
  - destruct (lookup_lt_is_Some_2 mt first) as [xm Hxm]; [lia|].
    destruct (lookup_lt_is_Some_2 zt first) as [xz Hxz]; [lia|].
    destruct (lookup_lt_is_Some_2 tt first) as [xt Hxt]; [lia|].
    set (c := cap first).
    assert (Hstep : min_payload_step mt zt tt first (m0, k0)
                    = Some (if double.lt c m0 then (c, first) else (m0, k0))).
    { unfold min_payload_step, c, cap. rewrite Hxm, Hxz, Hxt. done. }
    rewrite Hstep. simpl.
    destruct (double.lt c m0) eqn:Hlt.
    + destruct (IH (S first) c first) as (m & k & Hrun & Hnot & Hle & Hdisj); [lia..|].
      fold cap in Hnot, Hdisj.
      exists m, k. split; [done|]. split; [|split].
      * intros i Hi. destruct (decide (i = first)) as [->|]; [|apply Hnot; lia].
        fold c. destruct Hle as [->|Hlt2]; [apply double_facts.lt_irrefl|].
        destruct (double.lt c m) eqn:E; [|done].
        pose proof (double_facts.lt_trans _ _ _ E Hlt2) as Hcc.
        by rewrite double_facts.lt_irrefl in Hcc.
      * right. destruct Hle as [->|Hlt2]; [done|].
        by apply (double_facts.lt_trans _ c).
      * right. destruct Hdisj as [[-> ->]|(Hk & -> & Hlt2 & Hbefore)].
        -- split; [lia|]. split; [done|]. split; [done|]. intros i Hi. lia.
        -- split; [lia|]. split; [done|].
           split; [by apply (double_facts.lt_trans _ c)|].
           intros i Hi. destruct (decide (i = first)) as [->|]; [|apply Hbefore; lia].
           fold c. destruct (c <=? cap k)%float eqn:E; [|done].
           pose proof (double_facts.le_lt_trans _ _ _ E Hlt2) as Hcc.
           by rewrite double_facts.lt_irrefl in Hcc.
    + destruct (IH (S first) m0 k0) as (m & k & Hrun & Hnot & Hle & Hdisj); [lia..|].
      fold cap in Hnot, Hdisj.
      exists m, k. split; [done|]. split; [|split; [done|]].
      * intros i Hi. destruct (decide (i = first)) as [->|]; [|apply Hnot; lia].
        fold c. destruct Hle as [->|Hlt2]; [done|].
        destruct (double.lt c m) eqn:E; [|done].
        pose proof (double_facts.lt_trans _ _ _ E Hlt2) as Hcc. congruence.
      * destruct Hdisj as [?|(Hk & -> & Hlt2 & Hbefore)]; [by left|right].
        split; [lia|]. split; [done|]. split; [done|].
        intros i Hi. destruct (decide (i = first)) as [->|]; [|apply Hbefore; lia].
        fold c. destruct (c <=? cap k)%float eqn:E; [|done].
        pose proof (double_facts.le_lt_trans _ _ _ E Hlt2) as Hcc. congruence.
Qed.

(** Past the saturation check, [getMaxPayload] moves the robot state, solves
    with the unit tip wrench, runs the minimum loop and divides by [gravity_]. *)
Lemma getMaxPayload_run (w : World) (a : list float) (payload : float)
    (joint_saturated : nat) (group : moveit_core.JointModelGroup) (st : RobotState)
    (r0 r1 : Z * (nat -> float)) :
  joint_model_group_ (self w) = Some group ->
  state_ (self w) = Some st ->
  num_joints_ (self w) <= length (max_torques_ (self w)) ->
  0 < num_segments_ (self w) ->
  length a = num_joints_ (self w) ->
  solve_for (self w) a (zeros (self w)) (zeros (self w)) (no_wrenches (self w)) = Some r0 ->
  (0 <= r0.1)%Z ->
  (forall i, i < num_joints_ (self w) -> gravity_saturated (self w) r0.2 i = false) ->
  let st' := setJointGroupPositions st group a in
  let unit_wrenches := tip_wrenches (self w) (tip_to_base (self w) st') 1 in
  solve_for (self w) a (zeros (self w)) (zeros (self w)) unit_wrenches = Some r1 ->
  (0 <= r1.1)%Z ->
  getMaxPayload a payload joint_saturated w =
    match for_loop 0 (num_joints_ (self w))
            (min_payload_step (max_torques_ (self w))
               (r0.2 <$> seq 0 (num_joints_ (self w)))
               (r1.2 <$> seq 0 (num_joints_ (self w))))
            (double.numeric_limits_max, joint_saturated) with
    | Some (m, k) =>
        Returns (true, (m / gravity_ (self w))%float, k)
          {| self := set_state_ (Some st') (self w);
             trace := trace w ++
               [solve_event a (zeros (self w)) (zeros (self w)) (no_wrenches (self w));
                solve_event a (zeros (self w)) (zeros (self w)) unit_wrenches] |}
    | None => Undefined
    end.
Proof.
  intros Hgroup Hst Hlimits Hseg Ha Hsolve0 Hstatus0 Hunsat st' unit_wrenches Hsolve1 Hstatus1.
  assert (Hvalid : valid (self w) = true) by (unfold valid; by rewrite Hgroup).
  set (n := num_joints_ (self w)) in *.
  set (zt := r0.2 <$> seq 0 n).
  assert (Hzt : forall j, j < n -> default 0%float (zt !! j) = r0.2 j).
  { intros j Hj. unfold zt. by rewrite lookup_torques. }
  destruct (find_saturated_first zt (max_torques_ (self w)) n 0)
    as [(k & Hk & _ & Hsatk & _)|[Hrun _]].
  { unfold zt. rewrite length_fmap, length_seq. lia. }
  { lia. }
  { rewrite Hzt in Hsatk by lia. specialize (Hunsat k ltac:(lia)).
    unfold gravity_saturated, limit in Hunsat. congruence. }
  unfold getMaxPayload. unfold mbind, M_bind, this at 1. rewrite Hgroup.
  destruct (decide _) as [Hne|_]; [done|].
  rewrite getTorques_refines. unfold computeTorques_spec.
  fold (zeros (self w)) (no_wrenches (self w)).
  rewrite preconditions_hold by (rewrite ?length_zeros, ?length_no_wrenches; done).
  rewrite Hsolve0. simpl.
  replace (r0.1 <? 0)%Z with false by lia. simpl.
  fold n zt. rewrite Hrun. simpl.
  rewrite (update_state_run _ group a st) by done. simpl.
  fold st'. unfold no_wrenches. rewrite apply_tip_force_zero by done. simpl.
  rewrite getTorques_refines. unfold computeTorques_spec. simpl.
  fold (tip_wrenches (self w) (tip_to_base (self w) st') 1). fold unit_wrenches.
  change (replicate (num_joints_ (self w)) 0%float) with (zeros (self w)).
  rewrite preconditions_hold
    by (simpl; rewrite ?length_zeros; try done;
        unfold unit_wrenches; by rewrite length_tip_wrenches).
  change (solve_for (set_state_ (Some st') (self w)) a (zeros (self w)) (zeros (self w))
            unit_wrenches)
    with (solve_for (self w) a (zeros (self w)) (zeros (self w)) unit_wrenches).
  rewrite Hsolve1. simpl.
  replace (r1.1 <? 0)%Z with false by lia. simpl.
  fold n. destruct (for_loop 0 n _ _) as [[m k]|]; [|done].
  simpl. unfold record. simpl. by rewrite <- app_assoc.
Qed.

Lemma capacity_lookup (s : DynamicsSolver) (zf uf : nat -> float) (i : nat) :
  i < num_joints_ s ->
  payload_joint (default 0%float (max_torques_ s !! i))
    (default 0%float ((zf <$> seq 0 (num_joints_ s)) !! i))
    (default 0%float ((uf <$> seq 0 (num_joints_ s)) !! i))
  = capacity s zf uf i.
Proof. intros Hi. unfold capacity, limit. by rewrite !lookup_torques. Qed.

(** C1, as the code has it. With no joint saturated by gravity and both
    solves successful, [computeMaxPayload] returns success with payload
    [m / gravityNorm], where [m] is the running minimum of lines 270 to 284:
    it starts at the largest finite double and a capacity replaces it only
    when strictly below, so [m] is below no capacity. When some capacity is
    below the largest finite double, [m] is the capacity of the reported joint,
    the first joint with that capacity. When none is, [m] is the largest
    finite double. *)
Theorem getMaxPayload_running_minimum (w : World) (a : list float) (payload : float)
    (joint_saturated : nat) (group : moveit_core.JointModelGroup) (st : RobotState)
    (r0 r1 : Z * (nat -> float)) :
  joint_model_group_ (self w) = Some group ->
  state_ (self w) = Some st ->
  num_joints_ (self w) <= length (max_torques_ (self w)) ->
  0 < num_segments_ (self w) ->
  length a = num_joints_ (self w) ->
  solve_for (self w) a (zeros (self w)) (zeros (self w)) (no_wrenches (self w)) = Some r0 ->
  (0 <= r0.1)%Z ->
  (forall i, i < num_joints_ (self w) -> gravity_saturated (self w) r0.2 i = false) ->
  let st' := setJointGroupPositions st group a in
  let unit_wrenches := tip_wrenches (self w) (tip_to_base (self w) st') 1 in
  solve_for (self w) a (zeros (self w)) (zeros (self w)) unit_wrenches = Some r1 ->
  (0 <= r1.1)%Z ->
  let cap := capacity (self w) r0.2 r1.2 in
  exists (m : float) (k : nat),
    getMaxPayload a payload joint_saturated w
    = Returns (true, (m / gravity_ (self w))%float, k)
        {| self := set_state_ (Some st') (self w);
           trace := trace w ++
             [solve_event a (zeros (self w)) (zeros (self w)) (no_wrenches (self w));
              solve_event a (zeros (self w)) (zeros (self w)) unit_wrenches] |} /\
    (forall i, i < num_joints_ (self w) -> double.lt (cap i) m = false) /\
    ((exists i, i < num_joints_ (self w) /\
                double.lt (cap i) double.numeric_limits_max = true) ->
     binding_joint (self w) r0.2 r1.2 k /\ m = cap k /\
     forall i, i < k -> (cap i <=? cap k)%float = false) /\
    ((forall i, i < num_joints_ (self w) ->
                double.lt (cap i) double.numeric_limits_max = false) ->
     m = double.numeric_limits_max).
Proof.
  intros Hgroup Hst Hlimits Hseg Ha Hsolve0 Hstatus0 Hunsat st' unit_wrenches
    Hsolve1 Hstatus1 cap.
  rewrite (getMaxPayload_run w a payload joint_saturated group st r0 r1) by done.
  set (n := num_joints_ (self w)) in *.
  destruct (min_payload_loop (max_torques_ (self w)) (r0.2 <$> seq 0 n) (r1.2 <$> seq 0 n)
              n 0 double.numeric_limits_max joint_saturated)
    as (m & k & Hrun & Hbelow & Hle & Hindex);
    [rewrite ?length_fmap, ?length_seq; lia..|].
  rewrite Hrun. exists m, k. split; [done|].
  assert (Hcap : forall i, i < n -> double.lt (cap i) m = false).
  { intros i Hi. specialize (Hbelow i ltac:(lia)).
    by rewrite (capacity_lookup (self w)) in Hbelow by done. }
  split; [done|]. split.
  - intros (i & Hi & Hlt).
    destruct Hindex as [[-> ->]|(Hk & Hm & _ & Hfirst)].
    { rewrite Hcap in Hlt by done. discriminate. }
    rewrite (capacity_lookup (self w)) in Hm by (fold n; lia). fold cap in Hm.
    subst m. split; [|split; [done|]].
    + split; [fold n; lia|]. intros j Hj. by apply Hcap.
    + intros j Hj. specialize (Hfirst j ltac:(lia)).
      rewrite !(capacity_lookup (self w)) in Hfirst by (fold n; lia). done.
  - intros Hnone.
    destruct Hindex as [[-> _]|(Hk & Hm & Hlt & _)]; [done|].
    rewrite (capacity_lookup (self w)) in Hm by (fold n; lia). fold cap in Hm.
    subst m. rewrite Hnone in Hlt by lia. discriminate.
Qed.

(** C10. The division by [gravityNorm] is not guarded: on a solver whose
    gravity norm is [0.0], a query that reaches the conversion returns success,
    and its payload is the running minimum divided by zero, an infinity or a
    NaN. *)
Theorem getMaxPayload_divides_by_zero_gravity (w : World) (a : list float)
    (payload : float) (joint_saturated : nat) (group : moveit_core.JointModelGroup)
    (st : RobotState) (r0 r1 : Z * (nat -> float)) :
  gravity_ (self w) = 0%float ->
  joint_model_group_ (self w) = Some group ->
  state_ (self w) = Some st ->
  num_joints_ (self w) <= length (max_torques_ (self w)) ->
  0 < num_segments_ (self w) ->
  length a = num_joints_ (self w) ->
  solve_for (self w) a (zeros (self w)) (zeros (self w)) (no_wrenches (self w)) = Some r0 ->
  (0 <= r0.1)%Z ->
  (forall i, i < num_joints_ (self w) -> gravity_saturated (self w) r0.2 i = false) ->
  solve_for (self w) a (zeros (self w)) (zeros (self w))
    (tip_wrenches (self w) (tip_to_base (self w) (setJointGroupPositions st group a)) 1)
  = Some r1 ->
  (0 <= r1.1)%Z ->
  exists (m : float) (k : nat) (w' : World),
    getMaxPayload a payload joint_saturated w = Returns (true, (m / 0)%float, k) w' /\
    is_finite (m / 0) = false.
Proof.
  intros Hgravity Hgroup Hst Hlimits Hseg Ha Hsolve0 Hstatus0 Hunsat Hsolve1 Hstatus1.
  rewrite (getMaxPayload_run w a payload joint_saturated group st r0 r1) by done.
  set (n := num_joints_ (self w)) in *.
  destruct (min_payload_loop (max_torques_ (self w)) (r0.2 <$> seq 0 n) (r1.2 <$> seq 0 n)
              n 0 double.numeric_limits_max joint_saturated)
    as (m & k & Hrun & _);
    [rewrite ?length_fmap, ?length_seq; lia..|].
  rewrite Hrun, Hgravity. exists m, k. eexists. split; [reflexivity|].
  apply double_facts.div_zero_not_finite.
Qed.

Lemma dot_zero (r : Eigen.Vector3d) :
  Eigen.finite_vector r = true ->
  is_zero (Eigen.dot r {| Eigen.x := 0; Eigen.y := 0; Eigen.z := 0 |}) = true.
Proof.
  unfold Eigen.finite_vector, Eigen.dot. simpl.
  intros [[Hx Hy]%andb_prop Hz]%andb_prop.
  destruct (double_facts.mul_zero_r _ Hx) as [sx Hsx].
  destruct (double_facts.mul_zero_r _ Hy) as [sy Hsy].
  destruct (double_facts.mul_zero_r _ Hz) as [sz Hsz].
  destruct (double_facts.add_zeros _ _ _ _ Hsx Hsy) as [sxy Hsxy].
  destruct (double_facts.add_zeros _ _ _ _ Hsxy Hsz) as [s Hs].
  by apply (double_facts.is_zero_intro _ s).
Qed.

(** C4. On a valid solver, with angles and an output buffer of length
    [jointCount], [computePayloadTorques] is one [computeTorques] call, made
    after the robot state has taken the angles: zero velocities and
    accelerations, and wrenches that are zero on every segment but the tip.
    The tip force is [(0, 0, payload * gravityNorm)] rotated by the rotation
    of tip⁻¹·base, that is by the transposed tip rotation times the base
    rotation, with no translation in it; the tip torque is the zero vector
    through the same rotation, which is zero when the rotation is finite. *)
Theorem getPayloadTorques_single_call (w : World) (a : list float) (payload : float)
    (t : list float) (group : moveit_core.JointModelGroup) (st : RobotState) :
  joint_model_group_ (self w) = Some group ->
  state_ (self w) = Some st ->
  0 < num_segments_ (self w) ->
  length a = num_joints_ (self w) ->
  length t = num_joints_ (self w) ->
  let st' := setJointGroupPositions st group a in
  let tip_frame := getFrameTransform st' (tip_name_ (self w)) in
  let base_frame := getFrameTransform st' (base_name_ (self w)) in
  let transform := Eigen.mul (Eigen.inverse tip_frame) base_frame in
  let rotation :=
    Eigen.mat_mul (Eigen.transpose (Eigen.linear tip_frame)) (Eigen.linear base_frame) in
  let fz := (payload * gravity_ (self w))%float in
  let tip := tip_wrench transform fz in
  getPayloadTorques a payload t w
  = getTorques a (zeros (self w)) (zeros (self w))
      (replicate (num_segments_ (self w) - 1) geometry_msgs.Wrench_zero ++ [tip]) t
      {| self := set_state_ (Some st') (self w); trace := trace w |} /\
  Eigen.linear transform = rotation /\
  geometry_msgs.force tip
  = rotate rotation {| geometry_msgs.x := 0; geometry_msgs.y := 0; geometry_msgs.z := fz |} /\
  geometry_msgs.torque tip = rotate rotation geometry_msgs.Vector3_zero /\
  (Eigen.finite_matrix rotation = true -> zero_vector (geometry_msgs.torque tip) = true).
Proof.
  intros Hgroup Hst Hseg Ha Ht st' tip_frame base_frame transform rotation fz tip.
  split; [|split; [done|split; [done|split; [done|]]]].
  - unfold getPayloadTorques. unfold mbind, M_bind, this at 1. rewrite Hgroup.
    destruct (decide _) as [Hne|_]; [done|].
    destruct (decide _) as [Hne|_]; [done|].
    rewrite (update_state_run _ group a st) by done. simpl.
    rewrite apply_tip_force_zero by done. done.
  - unfold Eigen.finite_matrix.
    intros [[H0 H1]%andb_prop H2]%andb_prop.
    unfold zero_vector, tip, tip_wrench, transformVector. simpl.
    fold rotation.
    change (Eigen.linear transform) with rotation.
    unfold Eigen.mat_vec. simpl.
    by rewrite !dot_zero.
Qed.

(** C9. [computePayloadTorques] checks the length of the output buffer, which
    [computeMaxPayload] has not: on an invalid solver, on angles of the wrong
    length and on an output buffer of the wrong length it returns failure with
    the diagnostic of the first failed check, before the robot state is
    touched: the world it leaves has the solver it had, and the output buffer
    is the caller's. *)
Theorem getPayloadTorques_rejects (w : World) (a : list float) (payload : float)
    (t : list float) :
  valid (self w) = false \/
  length a ≠ num_joints_ (self w) \/
  length t ≠ num_joints_ (self w) ->
  exists w' : World,
    getPayloadTorques a payload t w = Returns (false, t) w' /\
    self w' = self w /\
    state_ (self w') = state_ (self w) /\
    trace w' = trace w ++ [payload_torques_diagnostic (self w) a].
Proof.
  intros Hfail.
  exists {| self := self w; trace := trace w ++ [payload_torques_diagnostic (self w) a] |}.
  split; [|done].
  unfold getPayloadTorques, payload_torques_diagnostic, valid in *.
  unfold mbind, M_bind, this at 1.
  destruct (joint_model_group_ (self w)) as [group|]; simpl; [|done].
  case_bool_decide as Hlen; simpl.
  - destruct (decide (length a ≠ num_joints_ (self w))); [done|].
    destruct (decide (length t ≠ num_joints_ (self w))); [done|].
    destruct Hfail as [?|[?|?]]; done.
  - destruct (decide (length a ≠ num_joints_ (self w))); done.
Qed.

End Payload.

(** ** Doubles: NaN and zero limits *)

Module double_edge.
Lemma Prim2SF_nan x : is_nan x = true -> Prim2SF x = S754_nan.
Proof. intros H. unfold Prim2SF. by rewrite H. Qed.

Lemma Prim2SF_not_nan x : is_nan x = false -> Prim2SF x <> S754_nan.
Proof.
  intros H. unfold Prim2SF. rewrite H.
  destruct (is_zero x); [done|]. destruct (is_infinity x); [done|].
  destruct (Z.frexp x) as [r e]. destruct (shr_fexp _ _ _ _ _) as [sh e2].
  by destruct (shr_m sh).
Qed.

(** [fabs(z) >= 0.0] holds for every [z] but a NaN. *)
Lemma ge_zero_limit z l :
  is_zero l = true -> is_nan z = false -> double.ge (double.fabs z) l = true.
Proof.
  unfold is_zero, double.ge, double.fabs.
  rewrite FloatAxioms.eqb_spec, leb_spec, abs_spec.
  change (Prim2SF zero) with (S754_zero false).
  intros Hl Hz%Prim2SF_not_nan. revert Hl Hz.
  unfold SFeqb, SFleb, SFcompare, SFabs.
  destruct (Prim2SF l) as [sl|sl| |sl ml el], (Prim2SF z) as [sz|sz| |sz mz ez];
    repeat match goal with b : bool |- _ => destruct b end;
    simpl; try discriminate; try reflexivity; try congruence.
Qed.

(** [fabs(z) >= l] is false when [z] is a NaN. *)
Lemma ge_nan z l : is_nan z = true -> double.ge (double.fabs z) l = false.
Proof.
  intros Hz. unfold double.ge, double.fabs.
  rewrite leb_spec, abs_spec, (Prim2SF_nan z Hz).
  unfold SFleb, SFcompare. simpl. by destruct (Prim2SF l).
Qed.

Lemma sub_nan_r m z : Prim2SF z = S754_nan -> Prim2SF (m - z) = S754_nan.
Proof.
  intros Hz. rewrite sub_spec, Hz. unfold SF64sub, SFsub. by destruct (Prim2SF m).
Qed.

Lemma div_nan_l a b : Prim2SF a = S754_nan -> Prim2SF (a / b) = S754_nan.
Proof. intros Ha. rewrite div_spec, Ha. reflexivity. Qed.

(** The capacity of a joint whose gravity torque is a NaN is below nothing. *)
Lemma payload_joint_nan m z t x :
  is_nan z = true -> double.lt (payload_joint m z t) x = false.
Proof.
  intros Hz%Prim2SF_nan.
  assert (Hnan : Prim2SF (payload_joint m z t) = S754_nan).
  { unfold payload_joint, double.max.
    destruct (_ <? _)%float; by apply div_nan_l, sub_nan_r. }
  unfold double.lt. rewrite ltb_spec, Hnan. reflexivity.
Qed.
End double_edge.

(** ** The queries, path by path *)

Section Queries.
Context {ext : Collaborators}.

(** Every path of [getMaxPayload], in the order of the source: the two
    checks, the gravity-only solve, the saturation loop, the move of the
    robot state, the unit wrench, the second solve and the minimum loop. *)
Lemma getMaxPayload_unfold (w : World) (a : list float) (payload : float)
    (joint_saturated : nat) :
  getMaxPayload a payload joint_saturated w =
  let s := self w in
  let n := num_joints_ s in
  let ev0 := solve_event a (zeros s) (zeros s) (no_wrenches s) in
  match joint_model_group_ s with
  | None => Returns (false, payload, joint_saturated) (record w [LogDebug NotConstructed])
  | Some group =>
    if decide (length a ≠ n)
    then Returns (false, payload, joint_saturated) (record w [LogError (JointAnglesSize n)])
    else
      match solve_for s a (zeros s) (zeros s) (no_wrenches s) with
      | None => Undefined
      | Some r0 =>
        if (r0.1 <? 0)%Z
        then Returns (false, payload, joint_saturated)
               (record w [ev0; LogError TorqueComputationFailed])
        else
          match find_saturated 0 n (r0.2 <$> seq 0 n) (max_torques_ s) with
          | None => Undefined
          | Some (Some i) => Returns (true, 0%float, i) (record w [ev0])
          | Some None =>
            match state_ s with
            | None => Undefined
            | Some st =>
              let st' := setJointGroupPositions st group a in
              let moved := set_state_ (Some st') s in
              let unit_wrenches := tip_wrenches s (tip_to_base s st') 1 in
              let ev1 := solve_event a (zeros s) (zeros s) unit_wrenches in
              if decide (num_segments_ s = 0) then Undefined
              else
                match solve_for s a (zeros s) (zeros s) unit_wrenches with
                | None => Undefined
                | Some r1 =>
                  if (r1.1 <? 0)%Z
                  then Returns (false, payload, joint_saturated)
                         {| self := moved;
                            trace := trace w ++ [ev0; ev1; LogError TorqueComputationFailed] |}
                  else
                    match for_loop 0 n
                            (min_payload_step (max_torques_ s)
                               (r0.2 <$> seq 0 n) (r1.2 <$> seq 0 n))
                            (double.numeric_limits_max, joint_saturated) with
                    | Some (m, k) =>
                        Returns (true, (m / gravity_ s)%float, k)
                          {| self := moved; trace := trace w ++ [ev0; ev1] |}
                    | None => Undefined
                    end
                end
            end
          end
      end
  end.
Proof.
  cbv zeta.
  unfold getMaxPayload. unfold mbind, M_bind, this at 1.
  destruct (joint_model_group_ (self w)) as [group|] eqn:Hgroup; [|done].
  destruct (decide _) as [Hne|Ha]; [done|].
  assert (Hlen : length a = num_joints_ (self w)) by (destruct (decide (length a = num_joints_ (self w))); [done|contradiction]).
  assert (Hvalid : valid (self w) = true) by (unfold valid; by rewrite Hgroup).
  rewrite getTorques_refines. unfold computeTorques_spec.
  fold (zeros (self w)) (no_wrenches (self w)).
  rewrite preconditions_hold by (rewrite ?length_zeros, ?length_no_wrenches; done).
  destruct (solve_for (self w) a (zeros (self w)) (zeros (self w)) (no_wrenches (self w)))
    as [r0|] eqn:Hsolve0; simpl; [|done].
  destruct (r0.1 <? 0)%Z; simpl; [done|].
  destruct (find_saturated 0 _ _ _) as [[i|]|]; simpl; [reflexivity| |reflexivity].
  destruct (state_ (self w)) as [st|] eqn:Hst.
  2:{ unfold update_state_and_get_transform, mbind, M_bind, this. simpl.
      by rewrite Hst. }
  rewrite (update_state_run _ group a st) by done. simpl.
  destruct (decide (num_segments_ (self w) = 0)) as [Hzero|Hseg].
  { unfold no_wrenches. rewrite Hzero. done. }
  unfold no_wrenches. rewrite apply_tip_force_zero by lia. simpl.
  rewrite getTorques_refines. unfold computeTorques_spec. simpl.
  set (st' := setJointGroupPositions st group a).
  fold (tip_wrenches (self w) (tip_to_base (self w) st') 1).
  set (unit_wrenches := tip_wrenches (self w) (tip_to_base (self w) st') 1).
  rewrite preconditions_hold
    by (simpl; rewrite ?length_zeros;
        first [done | unfold unit_wrenches; rewrite length_tip_wrenches by lia; done]).
  change (solve_for (set_state_ (Some st') (self w)) a (zeros (self w)) (zeros (self w))
            unit_wrenches)
    with (solve_for (self w) a (zeros (self w)) (zeros (self w)) unit_wrenches).
  destruct (solve_for (self w) a (zeros (self w)) (zeros (self w)) unit_wrenches)
    as [r1|]; simpl; [|done].
  destruct (r1.1 <? 0)%Z; simpl.
  - unfold record. simpl. by rewrite <- app_assoc.
  - destruct (for_loop 0 _ _ _) as [[m k]|]; [|done].
    simpl. unfold record. simpl. by rewrite <- app_assoc.
Qed.

(** Every path of [getPayloadTorques]: the three checks, the move of the
    robot state, the tip wrench and the solve. *)
Lemma getPayloadTorques_unfold (w : World) (a : list float) (payload : float)
    (t : list float) :
  getPayloadTorques a payload t w =
  let s := self w in
  let n := num_joints_ s in
  match joint_model_group_ s with
  | None => Returns (false, t) (record w [LogDebug NotConstructed])
  | Some group =>
    if decide (length a ≠ n)
    then Returns (false, t) (record w [LogError (JointAnglesSize n)])
    else if decide (length t ≠ n)
    then Returns (false, t) (record w [LogError (JointTorquesSize n)])
    else
      match state_ s with
      | None => Undefined
      | Some st =>
        let st' := setJointGroupPositions st group a in
        let moved := set_state_ (Some st') s in
        let wrenches := tip_wrenches s (tip_to_base s st') (payload * gravity_ s) in
        let ev := solve_event a (zeros s) (zeros s) wrenches in
        if decide (num_segments_ s = 0) then Undefined
        else
          match solve_for s a (zeros s) (zeros s) wrenches with
          | None => Undefined
          | Some r =>
            if (r.1 <? 0)%Z
            then Returns (false, t)
                   {| self := moved;
                      trace := trace w ++ [ev; LogError TorqueComputationFailed] |}
            else Returns (true, r.2 <$> seq 0 n)
                   {| self := moved; trace := trace w ++ [ev] |}
          end
      end
  end.
Proof.
  cbv zeta.
  unfold getPayloadTorques. unfold mbind, M_bind, this at 1.
  destruct (joint_model_group_ (self w)) as [group|] eqn:Hgroup; [|done].
  destruct (decide (length a ≠ _)) as [Hne|Ha]; [done|].
  destruct (decide (length t ≠ _)) as [Hne|Ht]; [done|].
  assert (Hlena : length a = num_joints_ (self w))
    by (destruct (decide (length a = num_joints_ (self w))); [done|contradiction]).
  assert (Hlent : length t = num_joints_ (self w))
    by (destruct (decide (length t = num_joints_ (self w))); [done|contradiction]).
  assert (Hvalid : valid (self w) = true) by (unfold valid; by rewrite Hgroup).
  unfold update_state_and_get_transform. unfold mbind, M_bind, this at 1.
  destruct (state_ (self w)) as [st|] eqn:Hst; simpl; [|done].
  destruct (decide (num_segments_ (self w) = 0)) as [Hzero|Hseg].
  { rewrite Hzero. done. }
  rewrite apply_tip_force_zero by lia. simpl.
  rewrite getTorques_refines. unfold computeTorques_spec. simpl.
  set (st' := setJointGroupPositions st group a).
  set (wrenches := tip_wrenches (self w) (tip_to_base (self w) st')
                     (payload * gravity_ (self w))).
  change (replicate (num_segments_ (self w) - 1) geometry_msgs.Wrench_zero ++ [_])
    with wrenches.
  change (replicate (num_joints_ (self w)) 0%float) with (zeros (self w)).
  rewrite preconditions_hold
    by (simpl; rewrite ?length_zeros;
        first [done | unfold wrenches; rewrite length_tip_wrenches by lia; done]).
  change (solve_for (set_state_ (Some st') (self w)) a (zeros (self w)) (zeros (self w))
            wrenches)
    with (solve_for (self w) a (zeros (self w)) (zeros (self w)) wrenches).
  destruct (solve_for (self w) a (zeros (self w)) (zeros (self w)) wrenches)
    as [r|]; simpl; [|done].
  destruct (r.1 <? 0)%Z; simpl; done.
Qed.

Lemma set_state_same (s : DynamicsSolver) : set_state_ (state_ s) s = s.
Proof. by destruct s. Qed.

(** The world a returning [getMaxPayload] leaves: the solver with at most
    its robot state replaced, and a longer trace with at most two solves. *)
Lemma getMaxPayload_world (w w' : World) (a : list float) (payload : float)
    (joint_saturated : nat) (r : bool * float * nat) :
  getMaxPayload a payload joint_saturated w = Returns r w' ->
  exists st es,
    self w' = set_state_ st (self w) /\ trace w' = trace w ++ es /\ solve_count es <= 2.
Proof.
  rewrite getMaxPayload_unfold. cbv zeta. intros Hrun.
  repeat case_match; try discriminate; injection Hrun as <- <-;
    first [ solve [ exists (state_ (self w)); rewrite set_state_same; eexists;
                    (split; [reflexivity|]); (split; [reflexivity|]); simpl; lia ]
          | solve [ eexists; eexists;
                    (split; [reflexivity|]); (split; [reflexivity|]); simpl; lia ] ].
Qed.

(** The same for [getPayloadTorques], with at most one solve. *)
Lemma getPayloadTorques_world (w w' : World) (a : list float) (payload : float)
    (t : list float) (r : bool * list float) :
  getPayloadTorques a payload t w = Returns r w' ->
  exists st es,
    self w' = set_state_ st (self w) /\ trace w' = trace w ++ es /\ solve_count es <= 1.
Proof.
  rewrite getPayloadTorques_unfold. cbv zeta. intros Hrun.
  repeat case_match; try discriminate; injection Hrun as <- <-;
    first [ solve [ exists (state_ (self w)); rewrite set_state_same; eexists;
                    (split; [reflexivity|]); (split; [reflexivity|]); simpl; lia ]
          | solve [ eexists; eexists;
                    (split; [reflexivity|]); (split; [reflexivity|]); simpl; lia ] ].
Qed.

(** [computeTorques_spec] reads nothing of the robot state. *)
Lemma computeTorques_spec_set_state (s : DynamicsSolver) (st : option RobotState)
    (q v c : list float) (wr : list geometry_msgs.Wrench) (t : list float) :
  computeTorques_spec (set_state_ st s) q v c wr t = computeTorques_spec s q v c wr t.
Proof. reflexivity. Qed.

(** X1. [getMaxPayload] on an invalid solver, or on angles of the wrong
    length, returns failure at once: the payload and the joint index are the
    caller's, the only event is the diagnostic of the failed check, no solve
    is made and the solver is as it was. *)
Theorem getMaxPayload_rejects (w : World) (a : list float) (payload : float)
    (joint_saturated : nat) :
  valid (self w) = false \/ length a ≠ num_joints_ (self w) ->
  getMaxPayload a payload joint_saturated w
  = Returns (false, payload, joint_saturated)
      (record w [if valid (self w)
                 then LogError (JointAnglesSize (num_joints_ (self w)))
                 else LogDebug NotConstructed]).
Proof.
  intros Hfail. rewrite getMaxPayload_unfold. cbv zeta. unfold valid in *.
  destruct (joint_model_group_ (self w)); [|done].
  destruct (decide _); [done|]. by destruct Hfail.
Qed.

(** X2. Whenever [getMaxPayload] returns failure, the payload and the joint
    index it hands back are the ones the caller passed: no path writes an
    output before it fails. *)
Theorem getMaxPayload_failure_keeps_outputs (w w' : World) (a : list float)
    (payload payload' : float) (joint_saturated joint_saturated' : nat) :
  getMaxPayload a payload joint_saturated w
  = Returns (false, payload', joint_saturated') w' ->
  payload' = payload /\ joint_saturated' = joint_saturated.
Proof.
  rewrite getMaxPayload_unfold. cbv zeta. intros Hrun.
  repeat case_match; try discriminate; by injection Hrun as <- <-.
Qed.

(** X3. A failure of the second solve of [getMaxPayload] is not without
    effect: the query returns failure with the caller's payload and index, but
    the robot state has already taken the angles, and the trace has both
    solves. *)
Theorem getMaxPayload_unit_solve_fails (w : World) (a : list float) (payload : float)
    (joint_saturated : nat) (group : moveit_core.JointModelGroup) (st : RobotState)
    (r0 r1 : Z * (nat -> float)) :
  joint_model_group_ (self w) = Some group ->
  state_ (self w) = Some st ->
  num_joints_ (self w) <= length (max_torques_ (self w)) ->
  0 < num_segments_ (self w) ->
  length a = num_joints_ (self w) ->
  solve_for (self w) a (zeros (self w)) (zeros (self w)) (no_wrenches (self w)) = Some r0 ->
  (0 <= r0.1)%Z ->
  (forall i, i < num_joints_ (self w) -> gravity_saturated (self w) r0.2 i = false) ->
  let st' := setJointGroupPositions st group a in
  let unit_wrenches := tip_wrenches (self w) (tip_to_base (self w) st') 1 in
  solve_for (self w) a (zeros (self w)) (zeros (self w)) unit_wrenches = Some r1 ->
  (r1.1 < 0)%Z ->
  exists w',
    getMaxPayload a payload joint_saturated w
    = Returns (false, payload, joint_saturated) w' /\
    state_ (self w') = Some st' /\
    self w' = set_state_ (Some st') (self w) /\
    trace w' = trace w ++
      [solve_event a (zeros (self w)) (zeros (self w)) (no_wrenches (self w));
       solve_event a (zeros (self w)) (zeros (self w)) unit_wrenches;
       LogError TorqueComputationFailed].
Proof.
  intros Hgroup Hst Hlimits Hseg Ha Hsolve0 Hstatus0 Hunsat st' unit_wrenches
    Hsolve1 Hstatus1.
  set (n := num_joints_ (self w)) in *.
  set (zt := r0.2 <$> seq 0 n).
  assert (Hzt : forall j, j < n -> default 0%float (zt !! j) = r0.2 j).
  { intros j Hj. unfold zt. by rewrite lookup_torques. }
  destruct (find_saturated_first zt (max_torques_ (self w)) n 0)
    as [(k & Hk & _ & Hsatk & _)|[Hrun _]].
  { unfold zt. rewrite length_fmap, length_seq. lia. }
  { lia. }
  { rewrite Hzt in Hsatk by lia. specialize (Hunsat k ltac:(lia)).
    unfold gravity_saturated, limit in Hunsat. congruence. }
  rewrite getMaxPayload_unfold. cbv zeta. rewrite Hgroup.
  destruct (decide _) as [Hne|_]; [done|].
  rewrite Hsolve0. replace (r0.1 <? 0)%Z with false by lia.
  fold n zt. rewrite Hrun, Hst.
  destruct (decide _) as [Hzero|_]; [lia|].
  fold st' unit_wrenches. rewrite Hsolve1.
  replace (r1.1 <? 0)%Z with true by lia.
  eexists. split; [reflexivity|]. done.
Qed.


(** X5. A successful [getTorques] hands the solver the caller's angles,
    velocities and accelerations as they are and the wrenches component by
    component, and fills the output buffer with the torque of each joint: the
    output has [jointCount] entries and entry [i] is the torque of joint [i]. *)
Theorem getTorques_stores_torques (w : World) (q v c : list float)
    (wr : list geometry_msgs.Wrench) (t : list float) (r : Z * (nat -> float)) :
  valid (self w) = true ->
  length q = num_joints_ (self w) ->
  length v = num_joints_ (self w) ->
  length c = num_joints_ (self w) ->
  length wr = num_segments_ (self w) ->
  length t = num_joints_ (self w) ->
  solve_for (self w) q v c wr = Some r ->
  (0 <= r.1)%Z ->
  exists t' : list float,
    getTorques q v c wr t w
    = Returns (true, t') (record w [Solve q v c (to_kdl_wrench <$> wr)]) /\
    length t' = num_joints_ (self w) /\
    forall i, i < num_joints_ (self w) -> t' !! i = Some (r.2 i).
Proof.
  intros Hvalid Hq Hv Hc Hwr Ht Hsolve Hstatus.
  unfold solve_for in Hsolve.
  destruct (chain_id_solver_ (self w)) as [[chain gravity]|] eqn:Hsolver; [|done].
  simpl in Hsolve. injection Hsolve as <-.
  rewrite (getTorques_run w q v c wr t chain gravity) by done. cbv zeta.
  replace (_ <? 0)%Z with false by lia.
  eexists. split; [reflexivity|]. split.
  - by rewrite length_fmap, length_seq.
  - intros i Hi. by apply lookup_torques.
Qed.

(** X9. A returning [getMaxPayload] changes nothing of the solver but the
    robot state: validity, the joint and segment counts, the limits, the
    gravity norm and the inverse dynamics solver are the ones it found. It
    only adds events to the trace, and at most two of them are solves. *)
Theorem getMaxPayload_keeps_configuration (w w' : World) (a : list float)
    (payload : float) (joint_saturated : nat) (r : bool * float * nat) :
  getMaxPayload a payload joint_saturated w = Returns r w' ->
  self w' = set_state_ (state_ (self w')) (self w) /\
  valid (self w') = valid (self w) /\
  max_torques_ (self w') = max_torques_ (self w) /\
  exists es, trace w' = trace w ++ es /\ solve_count es <= 2.
Proof.
  intros Hrun.
  destruct (getMaxPayload_world _ _ _ _ _ _ Hrun) as (st & es & Hself & Htrace & Hcount).
  rewrite Hself. repeat split; eauto.
Qed.

(** X10. A returning [getPayloadTorques] changes nothing of the solver but the
    robot state, only adds events to the trace, and makes at most one solve. *)
Theorem getPayloadTorques_keeps_configuration (w w' : World) (a : list float)
    (payload : float) (t : list float) (r : bool * list float) :
  getPayloadTorques a payload t w = Returns r w' ->
  self w' = set_state_ (state_ (self w')) (self w) /\
  valid (self w') = valid (self w) /\
  max_torques_ (self w') = max_torques_ (self w) /\
  exists es, trace w' = trace w ++ es /\ solve_count es <= 1.
Proof.
  intros Hrun.
  destruct (getPayloadTorques_world _ _ _ _ _ _ Hrun) as (st & es & Hself & Htrace & Hcount).
  rewrite Hself. repeat split; eauto.
Qed.

(** X11. A payload query does not change what [getTorques] answers: the same
    call after a returning [getMaxPayload] gives the flag and the torques it
    gives before it, although the robot state has moved in between. *)
Theorem getTorques_after_getMaxPayload (w w' w1 : World) (a : list float)
    (payload : float) (joint_saturated : nat) (r : bool * float * nat)
    (q v c : list float) (wr : list geometry_msgs.Wrench) (t : list float)
    (res : bool * list float) :
  getMaxPayload a payload joint_saturated w = Returns r w' ->
  getTorques q v c wr t w = Returns res w1 ->
  exists w2, getTorques q v c wr t w' = Returns res w2.
Proof.
  intros Hrun Hbefore.
  destruct (getMaxPayload_world _ _ _ _ _ _ Hrun) as (st & es & Hself & _ & _).
  rewrite getTorques_refines in Hbefore. rewrite getTorques_refines.
  rewrite Hself, computeTorques_spec_set_state.
  destruct (computeTorques_spec (self w) q v c wr t) as [[[ok t'] es']|]; [|done].
  injection Hbefore as <- _. eauto.
Qed.

(** The saturated path of [getMaxPayload]: it returns at the first joint with
    [|zeroTorques| >= limit], after the gravity-only solve. *)
Lemma getMaxPayload_saturated_path (w : World) (a : list float) (payload : float)
    (joint_saturated : nat) (r : Z * (nat -> float)) (i : nat) :
  valid (self w) = true ->
  num_joints_ (self w) <= length (max_torques_ (self w)) ->
  length a = num_joints_ (self w) ->
  solve_for (self w) a (zeros (self w)) (zeros (self w)) (no_wrenches (self w)) = Some r ->
  (0 <= r.1)%Z ->
  i < num_joints_ (self w) ->
  gravity_saturated (self w) r.2 i = true ->
  exists k,
    k <= i /\
    getMaxPayload a payload joint_saturated w
    = Returns (true, 0%float, k)
        (record w [solve_event a (zeros (self w)) (zeros (self w)) (no_wrenches (self w))]).
Proof.
  intros Hvalid Hlimits Ha Hsolve Hstatus Hi Hsat.
  set (n := num_joints_ (self w)) in *.
  set (zt := r.2 <$> seq 0 n).
  assert (Hzt : forall j, j < n -> default 0%float (zt !! j) = r.2 j).
  { intros j Hj. unfold zt. by rewrite lookup_torques. }
  rewrite getMaxPayload_unfold. cbv zeta. unfold valid in Hvalid.
  destruct (joint_model_group_ (self w)) as [group|]; [|done].
  destruct (decide _) as [Hne|_]; [done|].
  rewrite Hsolve. replace (r.1 <? 0)%Z with false by lia. fold n zt.
  destruct (find_saturated_first zt (max_torques_ (self w)) n 0)
    as [(k & Hk & Hrun & _ & Hbefore)|[_ Hnone]].
  { unfold zt. rewrite length_fmap, length_seq. lia. }
  { lia. }
  - exists k. rewrite Hrun. split; [|done].
    destruct (decide (k <= i)) as [|Hgt]; [done|].
    specialize (Hbefore i ltac:(lia)). rewrite Hzt in Hbefore by lia.
    unfold gravity_saturated, limit in Hsat. congruence.
  - specialize (Hnone i ltac:(lia)). rewrite Hzt in Hnone by lia.
    unfold gravity_saturated, limit in Hsat. congruence.
Qed.

(** X14. On a solver as the constructor leaves it, whose limit vector covers
    the joints and whose chain has a segment when it is valid, the payload
    queries always return: no vector is read out of range, whatever the
    arguments. *)
Theorem payload_queries_return (w : World) (a : list float) (payload : float)
    (joint_saturated : nat) (t : list float) :
  constructed (self w) = true ->
  (valid (self w) = true ->
   num_joints_ (self w) <= length (max_torques_ (self w)) /\ 0 < num_segments_ (self w)) ->
  (exists r w', getMaxPayload a payload joint_saturated w = Returns r w') /\
  (exists r w', getPayloadTorques a payload t w = Returns r w').
Proof.
  intros Hctor Hshape.
  assert (Hsolve : forall wr, valid (self w) = true ->
            exists r, solve_for (self w) a (zeros (self w)) (zeros (self w)) wr = Some r).
  { intros wr Hvalid. unfold solve_for, constructed, valid in *.
    destruct (joint_model_group_ (self w)); [|done].
    destruct (chain_id_solver_ (self w)) as [[chain gravity]|]; [|done].
    simpl. eauto. }
  unfold constructed, valid in *.
  split.
  - rewrite getMaxPayload_unfold. cbv zeta.
    destruct (joint_model_group_ (self w)) as [group|]; [|eauto].
    destruct Hshape as [Hlimits Hseg]; [done|].
    destruct (decide _); [eauto|].
    destruct (Hsolve (no_wrenches (self w))) as [r0 ->]; [done|].
    destruct (r0.1 <? 0)%Z; [eauto|].
    set (nj := num_joints_ (self w)) in *.
    destruct (find_saturated_first (r0.2 <$> seq 0 nj) (max_torques_ (self w)) nj 0)
      as [(k & _ & -> & _)|[-> _]]; [rewrite length_fmap, length_seq; lia|lia|eauto|].
    destruct (chain_id_solver_ (self w)); [|done].
    destruct (state_ (self w)) as [st|]; [|done].
    destruct (decide _); [lia|].
    destruct (Hsolve (tip_wrenches (self w)
                        (tip_to_base (self w) (setJointGroupPositions st group a)) 1))
      as [r1 ->]; [done|].
    destruct (r1.1 <? 0)%Z; [eauto|].
    destruct (min_payload_loop (max_torques_ (self w)) (r0.2 <$> seq 0 nj)
                (r1.2 <$> seq 0 nj) nj 0 double.numeric_limits_max joint_saturated)
      as (m & k & -> & _); [rewrite ?length_fmap, ?length_seq; lia..|].
    eauto.
  - rewrite getPayloadTorques_unfold. cbv zeta.
    destruct (joint_model_group_ (self w)) as [group|]; [|eauto].
    destruct Hshape as [Hlimits Hseg]; [done|].
    destruct (decide _); [eauto|]. destruct (decide _); [eauto|].
    destruct (chain_id_solver_ (self w)) eqn:Hsolver; [|done].
    destruct (state_ (self w)) as [st|]; [|done].
    destruct (decide _); [lia|].
    destruct (Hsolve (tip_wrenches (self w)
                        (tip_to_base (self w) (setJointGroupPositions st group a))
                        (payload * gravity_ (self w)))) as [r ->]; [done|].
    destruct (r.1 <? 0)%Z; eauto.
Qed.

(** X12. A joint whose limit is [0.0], as the constructor sets it for a joint
    without a declared effort limit, is saturated by any gravity torque that
    is not a NaN: when the gravity-only solve succeeds, [getMaxPayload] returns
    success with payload [0.0] at that joint or at an earlier saturated one,
    after that single solve. *)
Theorem zero_limit_gives_zero_payload (w : World) (a : list float) (payload : float)
    (joint_saturated : nat) (r : Z * (nat -> float)) (i : nat) :
  valid (self w) = true ->
  num_joints_ (self w) <= length (max_torques_ (self w)) ->
  length a = num_joints_ (self w) ->
  solve_for (self w) a (zeros (self w)) (zeros (self w)) (no_wrenches (self w)) = Some r ->
  (0 <= r.1)%Z ->
  i < num_joints_ (self w) ->
  is_zero (limit (self w) i) = true ->
  is_nan (r.2 i) = false ->
  exists k,
    k <= i /\
    getMaxPayload a payload joint_saturated w
    = Returns (true, 0%float, k)
        (record w [solve_event a (zeros (self w)) (zeros (self w)) (no_wrenches (self w))]).
Proof.
  intros Hvalid Hlimits Ha Hsolve Hstatus Hi Hzero Hnan.
  apply (getMaxPayload_saturated_path w a payload joint_saturated r i); try done.
  unfold gravity_saturated. by apply double_edge.ge_zero_limit.
Qed.

(** X13. NaN torques pass both loops of [getMaxPayload]. When the gravity-only
    solve answers a NaN for every joint, no joint counts as saturated, no
    capacity is below the start of the minimum, and with a successful second
    solve the query returns success with the largest finite double over the
    gravity norm and the joint index the caller passed. *)
Theorem getMaxPayload_nan_torques (w : World) (a : list float) (payload : float)
    (joint_saturated : nat) (group : moveit_core.JointModelGroup) (st : RobotState)
    (r0 r1 : Z * (nat -> float)) :
  joint_model_group_ (self w) = Some group ->
  state_ (self w) = Some st ->
  num_joints_ (self w) <= length (max_torques_ (self w)) ->
  0 < num_segments_ (self w) ->
  length a = num_joints_ (self w) ->
  solve_for (self w) a (zeros (self w)) (zeros (self w)) (no_wrenches (self w)) = Some r0 ->
  (0 <= r0.1)%Z ->
  (forall i, i < num_joints_ (self w) -> is_nan (r0.2 i) = true) ->
  let st' := setJointGroupPositions st group a in
  let unit_wrenches := tip_wrenches (self w) (tip_to_base (self w) st') 1 in
  solve_for (self w) a (zeros (self w)) (zeros (self w)) unit_wrenches = Some r1 ->
  (0 <= r1.1)%Z ->
  getMaxPayload a payload joint_saturated w
  = Returns (true, (double.numeric_limits_max / gravity_ (self w))%float, joint_saturated)
      {| self := set_state_ (Some st') (self w);
         trace := trace w ++
           [solve_event a (zeros (self w)) (zeros (self w)) (no_wrenches (self w));
            solve_event a (zeros (self w)) (zeros (self w)) unit_wrenches] |}.
Proof.
  intros Hgroup Hst Hlimits Hseg Ha Hsolve0 Hstatus0 Hnan st' unit_wrenches
    Hsolve1 Hstatus1.
  rewrite (getMaxPayload_run w a payload joint_saturated group st r0 r1); try done.
  2:{ intros i Hi. unfold gravity_saturated. by apply double_edge.ge_nan, Hnan. }
  set (n := num_joints_ (self w)) in *.
  destruct (min_payload_loop (max_torques_ (self w)) (r0.2 <$> seq 0 n) (r1.2 <$> seq 0 n)
              n 0 double.numeric_limits_max joint_saturated)
    as (m & k & Hrun & _ & _ & Hindex);
    [rewrite ?length_fmap, ?length_seq; lia..|].
  rewrite Hrun.
  destruct Hindex as [[-> ->]|(Hk & Hm & Hlt & _)]; [done|].
  rewrite Hm in Hlt. rewrite (lookup_torques r0.2) in Hlt by lia. simpl in Hlt.
  rewrite double_edge.payload_joint_nan in Hlt by (apply Hnan; lia). discriminate.
Qed.

End Queries.

(** ** What a valid solver was built from *)

Section ConstructorFields.
Context {ext : Collaborators}.


(** X7. After a construction that leaves a valid solver, the limit vector has
    one entry for each joint name of the group, in the order of the names:
    the effort limit the URDF declares for the joint of that name, and [0.0]
    when the URDF has no joint of that name or the joint declares no limits. *)
Theorem construct_limits_follow_names (i : Indeterminate)
    (robot_model : moveit_core.RobotModel) (name : string)
    (gravity_vector : geometry_msgs.Vector3) (w0 : World) :
  construct i robot_model name gravity_vector = Returns tt w0 ->
  valid (self w0) = true ->
  exists group,
    moveit_core.getJointModelGroup robot_model name = Some group /\
    length (max_torques_ (self w0)) = length (moveit_core.getJointModelNames group) /\
    forall k joint_model_name,
      moveit_core.getJointModelNames group !! k = Some joint_model_name ->
      max_torques_ (self w0) !! k
      = Some match urdf.getJoint (moveit_core.getURDF robot_model) joint_model_name with
             | Some ujoint =>
                 match urdf.limits ujoint with
                 | Some l => urdf.effort l
                 | None => 0%float
                 end
             | None => 0%float
             end.
Proof.
  intros Hrun Hvalid.
  destruct (construct_succeeds i robot_model name gravity_vector w0 Hrun Hvalid)
    as (group & chain & Hgroup & _ & _ & _ & _ & Hmax & _).
  exists group. split; [done|]. rewrite Hmax. split.
  - by rewrite length_fmap.
  - intros k jn Hk. rewrite list_lookup_fmap, Hk. reflexivity.
Qed.


End ConstructorFields.

(** ** Runs on the small robot *)

(** The rejections of the constructor, one robot group for each. *)
Example construct_rejection_traces :
  let build robot name :=
    toy.world_of (construct toy.garbage robot name (toy.vector3 0 0 (-10))) in
  trace (build toy.robot "both") = [LogError (GroupNotChain "both")] /\
  trace (build toy.robot "coupled") = [LogError (GroupHasMimicJoint "coupled")] /\
  trace (build toy.robot "floating") = [LogError (GroupNoParentLink "floating")] /\
  trace (build toy.bare_robot "arm") = [LogError TreeNotInitialized] /\
  trace (build toy.robot "detached") = [LogError ChainNotInitialized] /\
  trace (build toy.robot "leg") = [] /\
  trace (build toy.robot "arm") = [] /\
  valid (self (build toy.robot "arm")) = true /\
  max_torques_ (self (build toy.robot "arm")) = [10; 10]%float.
Proof. intros build. repeat split; vm_compute; reflexivity. Qed.

(** A payload query on the small arm: capacities 9 N and 4.5 N, the second
    joint binds and the payload is 0.45 kg; holding it takes the second joint
    to its limit of 10 N·m. *)
Example payload_round_trip :
  exists w' w'' : World,
    getMaxPayload [1; 2]%float 55%float 7 toy.arm
    = Returns (true, (4.5 / 10)%float, 1) w' /\
    getPayloadTorques [1; 2]%float (4.5 / 10)%float [0; 0]%float w'
    = Returns (true, [5.5; 10]%float) w''.
Proof.
  set (moved := {| self := set_state_
                             (Some (setJointGroupPositions toy.rest toy.arm_group
                                      [1; 2]%float))
                             (self toy.arm);
                   trace := trace toy.arm |}).
  eexists (record moved [_; _]), (record moved [_; _; _]).
  split; vm_compute; reflexivity.
Qed.

Lemma getTorques_fails_exactly_witness :
  let w := toy.arm in
  let a := [1]%float in
  let v := [0; 0]%float in
  let c := [0; 0]%float in
  let wr := no_wrenches (self w) in
  let t := [8; 8]%float in
  constructed (self w) = true /\
  exists (ok : bool) (t' : list float) (es : list Event),
    getTorques a v c wr t w = Returns (ok, t') (record w es) /\
    (ok = false <->
       valid (self w) = false \/
       length a ≠ num_joints_ (self w) \/
       length v ≠ num_joints_ (self w) \/
       length c ≠ num_joints_ (self w) \/
       length wr ≠ num_segments_ (self w) \/
       length t ≠ num_joints_ (self w) \/
       exists r, solve_for (self w) a v c wr = Some r /\ (r.1 < 0)%Z) /\
    (ok = false -> t' = t) /\
    (forall e, precondition_failure (self w) a v c wr t = Some e ->
       ok = false /\ es = [e]) /\
    (precondition_failure (self w) a v c wr t = None ->
       exists r, solve_for (self w) a v c wr = Some r /\
         es = solve_event a v c wr ::
              (if (r.1 <? 0)%Z then [LogError TorqueComputationFailed] else [])).
Proof.
  intros w a v c wr t. split; [vm_compute; reflexivity|].
  apply (getTorques_fails_exactly w a v c wr t). vm_compute. reflexivity.
Defined.

Lemma getTorques_leaves_solver_witness :
  let w := toy.arm in
  let a := [1; 2]%float in
  let v := [0; 0]%float in
  let c := [0; 0]%float in
  let wr := no_wrenches (self w) in
  let t := [8; 8]%float in
  let r := (true, [1; 1]%float) in
  let w' := record w [solve_event a v c wr] in
  getTorques a v c wr t w = Returns r w' /\
  self w' = self w /\ state_ (self w') = state_ (self w) /\
  forall w2 : World, self w2 = self w ->
    exists w2', getTorques a v c wr t w2 = Returns r w2' /\ self w2' = self w2.
Proof.
  intros w a v c wr t r w'.
  assert (Hrun : getTorques a v c wr t w = Returns r w') by (vm_compute; reflexivity).
  split; [exact Hrun|].
  exact (getTorques_leaves_solver w w' a v c wr t r Hrun).
Defined.

Lemma structural_problem_invalidates_witness :
  moveit_core.getJointModelGroup toy.robot "both" = Some toy.both_group /\
  structural_problem (ext := toy.collaborators) toy.robot toy.both_group /\
  exists w0 : World (ext := toy.collaborators),
    construct toy.garbage toy.robot "both" (toy.vector3 0 0 (-10)) = Returns tt w0 /\
             valid (self w0) = false /\
             permanently_invalid (self w0).
Proof.
  assert (Hgroup : moveit_core.getJointModelGroup toy.robot "both" = Some toy.both_group)
    by (vm_compute; reflexivity).
  assert (Hproblem : structural_problem (ext := toy.collaborators) toy.robot toy.both_group)
    by (left; reflexivity).
  split; [exact Hgroup|]. split; [exact Hproblem|].
  exact (structural_problem_invalidates toy.garbage toy.robot "both" (toy.vector3 0 0 (-10))
           toy.both_group Hgroup Hproblem).
Defined.

Lemma unknown_group_invalidates_witness :
  moveit_core.getJointModelGroup toy.robot "leg" = None /\
  exists w0 : World (ext := toy.collaborators),
    construct toy.garbage toy.robot "leg" (toy.vector3 0 0 (-10)) = Returns tt w0 /\
    trace w0 = [] /\
    valid (self w0) = false /\
    permanently_invalid (self w0).
Proof.
  assert (Hgroup : moveit_core.getJointModelGroup toy.robot "leg" = None)
    by (vm_compute; reflexivity).
  split; [exact Hgroup|].
  exact (unknown_group_invalidates toy.garbage toy.robot "leg" (toy.vector3 0 0 (-10)) Hgroup).
Defined.

Lemma getPayloadTorques_rejects_witness :
  let w := toy.arm in
  let a := [1; 2]%float in
  let t := [8; 8; 8]%float in
  (valid (self w) = false \/
   length a ≠ num_joints_ (self w) \/
   length t ≠ num_joints_ (self w)) /\
  exists w' : World,
    getPayloadTorques a 0.5%float t w = Returns (false, t) w' /\
    self w' = self w /\
    state_ (self w') = state_ (self w) /\
    trace w' = trace w ++ [payload_torques_diagnostic (self w) a].
Proof.
  intros w a t.
  assert (Hfail : valid (self w) = false \/
                  length a ≠ num_joints_ (self w) \/
                  length t ≠ num_joints_ (self w))
    by (right; right; vm_compute; lia).
  split; [exact Hfail|].
  exact (getPayloadTorques_rejects w a 0.5%float t Hfail).
Defined.

Lemma getMaxPayload_gravity_saturated_witness :
  let w := toy.arm_with_fixed_joint in
  let a := [1; 2]%float in
  let r := toy.answer w a (no_wrenches (self w)) in
  let i := 1 in
  (valid (self w) = true /\
   num_joints_ (self w) <= length (max_torques_ (self w)) /\
   length a = num_joints_ (self w) /\
   solve_for (self w) a (zeros (self w)) (zeros (self w)) (no_wrenches (self w)) = Some r /\
   (0 <= r.1)%Z /\
   i < num_joints_ (self w) /\
   gravity_saturated (self w) r.2 i = true) /\
  exists k,
    k <= i /\
    gravity_saturated (self w) r.2 k = true /\
    (forall j, j < k -> gravity_saturated (self w) r.2 j = false) /\
    getMaxPayload a 55%float 7 w
    = Returns (true, 0%float, k)
        (record w [solve_event a (zeros (self w)) (zeros (self w)) (no_wrenches (self w))]).
Proof.
  intros w a r i.
  assert (Hvalid : valid (self w) = true) by (vm_compute; reflexivity).
  assert (Hlimits : num_joints_ (self w) <= length (max_torques_ (self w)))
    by (vm_compute; lia).
  assert (Ha : length a = num_joints_ (self w)) by (vm_compute; reflexivity).
  assert (Hsolve : solve_for (self w) a (zeros (self w)) (zeros (self w))
                     (no_wrenches (self w)) = Some r) by (vm_compute; reflexivity).
  assert (Hstatus : (0 <= r.1)%Z) by (vm_compute; discriminate).
  assert (Hi : i < num_joints_ (self w)) by (vm_compute; lia).
  assert (Hsat : gravity_saturated (self w) r.2 i = true) by (vm_compute; reflexivity).
  split; [exact (conj Hvalid (conj Hlimits (conj Ha (conj Hsolve
                  (conj Hstatus (conj Hi Hsat))))))|].
  exact (getMaxPayload_gravity_saturated w a 55%float 7 r i
           Hvalid Hlimits Ha Hsolve Hstatus Hi Hsat).
Defined.

Lemma getMaxPayload_running_minimum_witness :
  let w := toy.arm in
  let a := [1; 2]%float in
  let group := toy.arm_group in
  let st := toy.rest in
  let r0 := toy.answer w a (no_wrenches (self w)) in
  let r1 := toy.answer w a (toy.unit_wrenches w group a) in
  let st' := setJointGroupPositions st group a in
  let unit_wrenches := tip_wrenches (self w) (tip_to_base (self w) st') 1 in
  let cap := capacity (self w) r0.2 r1.2 in
  (joint_model_group_ (self w) = Some group /\
   state_ (self w) = Some st /\
   num_joints_ (self w) <= length (max_torques_ (self w)) /\
   0 < num_segments_ (self w) /\
   length a = num_joints_ (self w) /\
   solve_for (self w) a (zeros (self w)) (zeros (self w)) (no_wrenches (self w)) = Some r0 /\
   (0 <= r0.1)%Z /\
   (forall i, i < num_joints_ (self w) -> gravity_saturated (self w) r0.2 i = false) /\
   solve_for (self w) a (zeros (self w)) (zeros (self w)) unit_wrenches = Some r1 /\
   (0 <= r1.1)%Z) /\
  exists (m : float) (k : nat),
    getMaxPayload a 55%float 7 w
    = Returns (true, (m / gravity_ (self w))%float, k)
        {| self := set_state_ (Some st') (self w);
           trace := trace w ++
             [solve_event a (zeros (self w)) (zeros (self w)) (no_wrenches (self w));
              solve_event a (zeros (self w)) (zeros (self w)) unit_wrenches] |} /\
    (forall i, i < num_joints_ (self w) -> double.lt (cap i) m = false) /\
    ((exists i, i < num_joints_ (self w) /\
                double.lt (cap i) double.numeric_limits_max = true) ->
     binding_joint (self w) r0.2 r1.2 k /\ m = cap k /\
     forall i, i < k -> (cap i <=? cap k)%float = false) /\
    ((forall i, i < num_joints_ (self w) ->
                double.lt (cap i) double.numeric_limits_max = false) ->
     m = double.numeric_limits_max).
Proof.
  intros w a group st r0 r1 st' unit_wrenches cap.
  assert (Hgroup : joint_model_group_ (self w) = Some group) by (vm_compute; reflexivity).
  assert (Hst : state_ (self w) = Some st) by (vm_compute; reflexivity).
  assert (Hlimits : num_joints_ (self w) <= length (max_torques_ (self w)))
    by (vm_compute; lia).
  assert (Hseg : 0 < num_segments_ (self w)) by (vm_compute; lia).
  assert (Ha : length a = num_joints_ (self w)) by (vm_compute; reflexivity).
  assert (Hsolve0 : solve_for (self w) a (zeros (self w)) (zeros (self w))
                      (no_wrenches (self w)) = Some r0) by (vm_compute; reflexivity).
  assert (Hstatus0 : (0 <= r0.1)%Z) by (vm_compute; discriminate).
  assert (Hunsat : forall i, i < num_joints_ (self w) ->
                     gravity_saturated (self w) r0.2 i = false).
  { intros i Hi. vm_compute in Hi.
    destruct i as [|[|i]]; [vm_compute; reflexivity..|lia]. }
  assert (Hsolve1 : solve_for (self w) a (zeros (self w)) (zeros (self w)) unit_wrenches
                    = Some r1) by (vm_compute; reflexivity).
  assert (Hstatus1 : (0 <= r1.1)%Z) by (vm_compute; discriminate).
  split; [exact (conj Hgroup (conj Hst (conj Hlimits (conj Hseg (conj Ha
                  (conj Hsolve0 (conj Hstatus0 (conj Hunsat (conj Hsolve1 Hstatus1)))))))))|].
  exact (getMaxPayload_running_minimum w a 55%float 7 group st r0 r1
           Hgroup Hst Hlimits Hseg Ha Hsolve0 Hstatus0 Hunsat Hsolve1 Hstatus1).
Defined.

Lemma getMaxPayload_divides_by_zero_gravity_witness :
  let w := toy.weightless_arm in
  let a := [1; 2]%float in
  let group := toy.arm_group in
  let st := toy.rest in
  let r0 := toy.answer w a (no_wrenches (self w)) in
  let r1 := toy.answer w a (toy.unit_wrenches w group a) in
  (gravity_ (self w) = 0%float /\
   joint_model_group_ (self w) = Some group /\
   state_ (self w) = Some st /\
   num_joints_ (self w) <= length (max_torques_ (self w)) /\
   0 < num_segments_ (self w) /\
   length a = num_joints_ (self w) /\
   solve_for (self w) a (zeros (self w)) (zeros (self w)) (no_wrenches (self w)) = Some r0 /\
   (0 <= r0.1)%Z /\
   (forall i, i < num_joints_ (self w) -> gravity_saturated (self w) r0.2 i = false) /\
   solve_for (self w) a (zeros (self w)) (zeros (self w))
     (tip_wrenches (self w) (tip_to_base (self w) (setJointGroupPositions st group a)) 1)
   = Some r1 /\
   (0 <= r1.1)%Z) /\
  exists (m : float) (k : nat) (w' : World),
    getMaxPayload a 55%float 7 w = Returns (true, (m / 0)%float, k) w' /\
    is_finite (m / 0) = false.
Proof.
  intros w a group st r0 r1.
  assert (Hgravity : gravity_ (self w) = 0%float) by (vm_compute; reflexivity).
  assert (Hgroup : joint_model_group_ (self w) = Some group) by (vm_compute; reflexivity).
  assert (Hst : state_ (self w) = Some st) by (vm_compute; reflexivity).
  assert (Hlimits : num_joints_ (self w) <= length (max_torques_ (self w)))
    by (vm_compute; lia).
  assert (Hseg : 0 < num_segments_ (self w)) by (vm_compute; lia).
  assert (Ha : length a = num_joints_ (self w)) by (vm_compute; reflexivity).
  assert (Hsolve0 : solve_for (self w) a (zeros (self w)) (zeros (self w))
                      (no_wrenches (self w)) = Some r0) by (vm_compute; reflexivity).
  assert (Hstatus0 : (0 <= r0.1)%Z) by (vm_compute; discriminate).
  assert (Hunsat : forall i, i < num_joints_ (self w) ->
                     gravity_saturated (self w) r0.2 i = false).
  { intros i Hi. vm_compute in Hi.
    destruct i as [|[|i]]; [vm_compute; reflexivity..|lia]. }
  assert (Hsolve1 : solve_for (self w) a (zeros (self w)) (zeros (self w))
                      (tip_wrenches (self w)
                         (tip_to_base (self w) (setJointGroupPositions st group a)) 1)
                    = Some r1) by (vm_compute; reflexivity).
  assert (Hstatus1 : (0 <= r1.1)%Z) by (vm_compute; discriminate).
  split; [exact (conj Hgravity (conj Hgroup (conj Hst (conj Hlimits (conj Hseg (conj Ha
                  (conj Hsolve0 (conj Hstatus0 (conj Hunsat (conj Hsolve1 Hstatus1))))))))))|].
  exact (getMaxPayload_divides_by_zero_gravity w a 55%float 7 group st r0 r1
           Hgravity Hgroup Hst Hlimits Hseg Ha Hsolve0 Hstatus0 Hunsat Hsolve1 Hstatus1).
Defined.

Lemma getPayloadTorques_single_call_witness :
  let w := toy.arm in
  let a := [1; 2]%float in
  let payload := 0.5%float in
  let t := [8; 8]%float in
  let group := toy.arm_group in
  let st := toy.rest in
  let st' := setJointGroupPositions st group a in
  let tip_frame := getFrameTransform st' (tip_name_ (self w)) in
  let base_frame := getFrameTransform st' (base_name_ (self w)) in
  let transform := Eigen.mul (Eigen.inverse tip_frame) base_frame in
  let rotation :=
    Eigen.mat_mul (Eigen.transpose (Eigen.linear tip_frame)) (Eigen.linear base_frame) in
  let fz := (payload * gravity_ (self w))%float in
  let tip := tip_wrench transform fz in
  (joint_model_group_ (self w) = Some group /\
   state_ (self w) = Some st /\
   0 < num_segments_ (self w) /\
   length a = num_joints_ (self w) /\
   length t = num_joints_ (self w)) /\
  getPayloadTorques a payload t w
  = getTorques a (zeros (self w)) (zeros (self w))
      (replicate (num_segments_ (self w) - 1) geometry_msgs.Wrench_zero ++ [tip]) t
      {| self := set_state_ (Some st') (self w); trace := trace w |} /\
  Eigen.linear transform = rotation /\
  geometry_msgs.force tip
  = rotate rotation {| geometry_msgs.x := 0; geometry_msgs.y := 0; geometry_msgs.z := fz |} /\
  geometry_msgs.torque tip = rotate rotation geometry_msgs.Vector3_zero /\
  (Eigen.finite_matrix rotation = true -> zero_vector (geometry_msgs.torque tip) = true).
Proof.
  intros w a payload t group st st' tip_frame base_frame transform rotation fz tip.
  assert (Hgroup : joint_model_group_ (self w) = Some group) by (vm_compute; reflexivity).
  assert (Hst : state_ (self w) = Some st) by (vm_compute; reflexivity).
  assert (Hseg : 0 < num_segments_ (self w)) by (vm_compute; lia).
  assert (Ha : length a = num_joints_ (self w)) by (vm_compute; reflexivity).
  assert (Ht : length t = num_joints_ (self w)) by (vm_compute; reflexivity).
  split; [exact (conj Hgroup (conj Hst (conj Hseg (conj Ha Ht))))|].
  exact (getPayloadTorques_single_call w a payload t group st Hgroup Hst Hseg Ha Ht).
Defined.

(** C1 as stated fails when no joint feels the tip force: at the angles
    [(0, 0)] the unit wrench changes no torque of the small arm, every
    capacity is an infinity, and the payload is the largest finite double
    over the gravity norm with the index left at the caller's 7, which is not
    a joint of the chain. *)
Lemma getMaxPayload_no_binding_joint :
  let w := toy.arm in
  let a := [0; 0]%float in
  let group := toy.arm_group in
  let st := toy.rest in
  let r0 := toy.answer w a (no_wrenches (self w)) in
  let r1 := toy.answer w a (toy.unit_wrenches w group a) in
  let cap := capacity (self w) r0.2 r1.2 in
  (joint_model_group_ (self w) = Some group /\
   state_ (self w) = Some st /\
   num_joints_ (self w) = 2 /\
   length a = num_joints_ (self w) /\
   solve_for (self w) a (zeros (self w)) (zeros (self w)) (no_wrenches (self w)) = Some r0 /\
   (0 <= r0.1)%Z /\
   gravity_saturated (self w) r0.2 0 = false /\
   gravity_saturated (self w) r0.2 1 = false /\
   solve_for (self w) a (zeros (self w)) (zeros (self w)) (toy.unit_wrenches w group a)
   = Some r1 /\
   (0 <= r1.1)%Z) /\
  cap 0 = infinity /\ cap 1 = infinity /\
  exists (p : float) (k : nat) (w' : World),
    getMaxPayload a 55%float 7 w = Returns (true, p, k) w' /\
    p = (double.numeric_limits_max / 10)%float /\ k = 7 /\
    p <> (cap 0%nat / gravity_ (self w))%float /\
    p <> (cap 1%nat / gravity_ (self w))%float /\
    ~ (binding_joint (self w) r0.2 r1.2 k /\ p = (cap k / gravity_ (self w))%float).
Proof.
  intros w a group st r0 r1 cap.
  assert (Hn : num_joints_ (self w) = 2) by (vm_compute; reflexivity).
  split.
  { split; [vm_compute; reflexivity|]. split; [vm_compute; reflexivity|].
    split; [exact Hn|]. split; [vm_compute; reflexivity|].
    split; [vm_compute; reflexivity|]. split; [vm_compute; discriminate|].
    split; [vm_compute; reflexivity|]. split; [vm_compute; reflexivity|].
    split; [vm_compute; reflexivity|]. vm_compute; discriminate. }
  split; [vm_compute; reflexivity|]. split; [vm_compute; reflexivity|].
  exists (double.numeric_limits_max / 10)%float, 7,
    {| self := set_state_ (Some (setJointGroupPositions st group a)) (self w);
       trace := trace w ++
         [solve_event a (zeros (self w)) (zeros (self w)) (no_wrenches (self w));
          solve_event a (zeros (self w)) (zeros (self w)) (toy.unit_wrenches w group a)] |}.
  split; [vm_compute; reflexivity|]. split; [reflexivity|]. split; [reflexivity|].
  split; [|split].
  - intros H. apply (f_equal is_finite) in H. vm_compute in H. discriminate.
  - intros H. apply (f_equal is_finite) in H. vm_compute in H. discriminate.
  - intros [[Hk _] _]. rewrite Hn in Hk. lia.
Qed.

(** C6 on a chain with a fixed joint. The limit vector has one entry per
    joint name of the group, the fixed joint included: three entries for two
    movable joints, so the second movable joint, rated 30 N·m, is checked
    against the [0.0] of the fixed joint and every payload query answers
    [0.0]. *)
Theorem max_torques_counts_fixed_joint :
  let w := toy.arm_with_fixed_joint in
  construct toy.garbage toy.robot_with_fixed_joint "arm" (toy.vector3 0 0 (-10))
  = Returns tt w /\
  valid (self w) = true /\
  num_joints_ (self w) = 2 /\
  max_torques_ (self w) = [10; 0; 30]%float /\
  length (max_torques_ (self w)) ≠ num_joints_ (self w) /\
  limit (self w) 1 = 0%float /\
  exists w', getMaxPayload [1; 2]%float 55%float 7 w = Returns (true, 0%float, 1) w'.
Proof.
  intros w.
  split; [vm_compute; reflexivity|]. split; [vm_compute; reflexivity|].
  split; [vm_compute; reflexivity|]. split; [vm_compute; reflexivity|].
  split; [vm_compute; lia|]. split; [vm_compute; reflexivity|].
  exists (record w [solve_event [1; 2]%float (zeros (self w)) (zeros (self w))
                      (no_wrenches (self w))]).
  vm_compute. reflexivity.
Qed.

Lemma getMaxPayload_rejects_witness :
  let w := toy.arm in
  let a := [1]%float in
  (valid (self w) = false \/ length a ≠ num_joints_ (self w)) /\
  getMaxPayload a 55%float 7 w
  = Returns (false, 55%float, 7)
      (record w [if valid (self w)
                 then LogError (JointAnglesSize (num_joints_ (self w)))
                 else LogDebug NotConstructed]).
Proof.
  intros w a.
  assert (Hfail : valid (self w) = false \/ length a ≠ num_joints_ (self w))
    by (right; vm_compute; lia).
  split; [exact Hfail|].
  exact (getMaxPayload_rejects w a 55%float 7 Hfail).
Defined.

Lemma getMaxPayload_failure_keeps_outputs_witness :
  let w := toy.arm in
  let a := [1]%float in
  let w' := record w [LogError (JointAnglesSize 2)] in
  getMaxPayload a 55%float 7 w = Returns (false, 55%float, 7) w' /\
  55%float = 55%float /\ 7 = 7.
Proof.
  intros w a w'.
  assert (Hrun : getMaxPayload a 55%float 7 w = Returns (false, 55%float, 7) w')
    by (vm_compute; reflexivity).
  split; [exact Hrun|].
  exact (getMaxPayload_failure_keeps_outputs w w' a 55%float 55%float 7 7 Hrun).
Defined.

Lemma getMaxPayload_unit_solve_fails_witness :
  let w := toy.strict_arm in
  let a := [1; 2]%float in
  let group := toy.arm_group in
  let st := toy.strict_rest in
  let st' := setJointGroupPositions st group a in
  let unit_wrenches := tip_wrenches (self w) (tip_to_base (self w) st') 1 in
  let r0 := toy.strict_answer w a (no_wrenches (self w)) in
  let r1 := toy.strict_answer w a unit_wrenches in
  (joint_model_group_ (self w) = Some group /\
   state_ (self w) = Some st /\
   num_joints_ (self w) <= length (max_torques_ (self w)) /\
   0 < num_segments_ (self w) /\
   length a = num_joints_ (self w) /\
   solve_for (self w) a (zeros (self w)) (zeros (self w)) (no_wrenches (self w)) = Some r0 /\
   (0 <= r0.1)%Z /\
   (forall i, i < num_joints_ (self w) -> gravity_saturated (self w) r0.2 i = false) /\
   solve_for (self w) a (zeros (self w)) (zeros (self w)) unit_wrenches = Some r1 /\
   (r1.1 < 0)%Z) /\
  exists w',
    getMaxPayload a 55%float 7 w = Returns (false, 55%float, 7) w' /\
    state_ (self w') = Some st' /\
    self w' = set_state_ (Some st') (self w) /\
    trace w' = trace w ++
      [solve_event a (zeros (self w)) (zeros (self w)) (no_wrenches (self w));
       solve_event a (zeros (self w)) (zeros (self w)) unit_wrenches;
       LogError TorqueComputationFailed].
Proof.
  intros w a group st st' unit_wrenches r0 r1.
  assert (Hgroup : joint_model_group_ (self w) = Some group) by (vm_compute; reflexivity).
  assert (Hst : state_ (self w) = Some st) by (vm_compute; reflexivity).
  assert (Hlimits : num_joints_ (self w) <= length (max_torques_ (self w)))
    by (vm_compute; lia).
  assert (Hseg : 0 < num_segments_ (self w)) by (vm_compute; lia).
  assert (Ha : length a = num_joints_ (self w)) by (vm_compute; reflexivity).
  assert (Hsolve0 : solve_for (self w) a (zeros (self w)) (zeros (self w))
                      (no_wrenches (self w)) = Some r0) by (vm_compute; reflexivity).
  assert (Hstatus0 : (0 <= r0.1)%Z) by (vm_compute; discriminate).
  assert (Hunsat : forall i, i < num_joints_ (self w) ->
                     gravity_saturated (self w) r0.2 i = false).
  { intros i Hi. vm_compute in Hi.
    destruct i as [|[|i]]; [vm_compute; reflexivity..|lia]. }
  assert (Hsolve1 : solve_for (self w) a (zeros (self w)) (zeros (self w)) unit_wrenches
                    = Some r1) by (vm_compute; reflexivity).
  assert (Hstatus1 : (r1.1 < 0)%Z) by (vm_compute; reflexivity).
  split; [exact (conj Hgroup (conj Hst (conj Hlimits (conj Hseg (conj Ha
                  (conj Hsolve0 (conj Hstatus0 (conj Hunsat (conj Hsolve1 Hstatus1)))))))))|].
  exact (getMaxPayload_unit_solve_fails w a 55%float 7 group st r0 r1
           Hgroup Hst Hlimits Hseg Ha Hsolve0 Hstatus0 Hunsat Hsolve1 Hstatus1).
Defined.


Lemma getTorques_stores_torques_witness :
  let w := toy.arm in
  let q := [1; 2]%float in
  let v := zeros (self w) in
  let wr := no_wrenches (self w) in
  let t := [8; 8]%float in
  let r := toy.answer w q wr in
  (valid (self w) = true /\
   length q = num_joints_ (self w) /\
   length v = num_joints_ (self w) /\
   length wr = num_segments_ (self w) /\
   length t = num_joints_ (self w) /\
   solve_for (self w) q v v wr = Some r /\
   (0 <= r.1)%Z) /\
  exists t' : list float,
    getTorques q v v wr t w
    = Returns (true, t') (record w [Solve q v v (to_kdl_wrench <$> wr)]) /\
    length t' = num_joints_ (self w) /\
    forall i, i < num_joints_ (self w) -> t' !! i = Some (r.2 i).
Proof.
  intros w q v wr t r.
  assert (Hvalid : valid (self w) = true) by (vm_compute; reflexivity).
  assert (Hq : length q = num_joints_ (self w)) by (vm_compute; reflexivity).
  assert (Hv : length v = num_joints_ (self w)) by (vm_compute; reflexivity).
  assert (Hwr : length wr = num_segments_ (self w)) by (vm_compute; reflexivity).
  assert (Ht : length t = num_joints_ (self w)) by (vm_compute; reflexivity).
  assert (Hsolve : solve_for (self w) q v v wr = Some r) by (vm_compute; reflexivity).
  assert (Hstatus : (0 <= r.1)%Z) by (vm_compute; discriminate).
  split; [exact (conj Hvalid (conj Hq (conj Hv (conj Hwr (conj Ht (conj Hsolve Hstatus))))))|].
  exact (getTorques_stores_torques w q v v wr t r Hvalid Hq Hv Hv Hwr Ht Hsolve Hstatus).
Defined.

Lemma getMaxPayload_keeps_configuration_witness :
  let w := toy.arm in
  let a := [1; 2]%float in
  let r := (true, (4.5 / 10)%float, 1) in
  let w' := toy.after_payload_query w toy.arm_group a in
  getMaxPayload a 55%float 7 w = Returns r w' /\
  self w' = set_state_ (state_ (self w')) (self w) /\
  valid (self w') = valid (self w) /\
  max_torques_ (self w') = max_torques_ (self w) /\
  exists es, trace w' = trace w ++ es /\ solve_count es <= 2.
Proof.
  intros w a r w'.
  assert (Hrun : getMaxPayload a 55%float 7 w = Returns r w') by (vm_compute; reflexivity).
  split; [exact Hrun|].
  exact (getMaxPayload_keeps_configuration w w' a 55%float 7 r Hrun).
Defined.

Lemma getPayloadTorques_keeps_configuration_witness :
  let w := toy.arm in
  let a := [1; 2]%float in
  let t := [8; 8]%float in
  let r := (true, [6; 11]%float) in
  let st' := setJointGroupPositions toy.rest toy.arm_group a in
  let wrenches :=
    tip_wrenches (self w) (tip_to_base (self w) st') (0.5 * gravity_ (self w)) in
  let w' := {| self := set_state_ (Some st') (self w);
               trace := trace w ++
                 [solve_event a (zeros (self w)) (zeros (self w)) wrenches] |} in
  getPayloadTorques a 0.5%float t w = Returns r w' /\
  self w' = set_state_ (state_ (self w')) (self w) /\
  valid (self w') = valid (self w) /\
  max_torques_ (self w') = max_torques_ (self w) /\
  exists es, trace w' = trace w ++ es /\ solve_count es <= 1.
Proof.
  intros w a t r st' wrenches w'.
  assert (Hrun : getPayloadTorques a 0.5%float t w = Returns r w')
    by (vm_compute; reflexivity).
  split; [exact Hrun|].
  exact (getPayloadTorques_keeps_configuration w w' a 0.5%float t r Hrun).
Defined.

Lemma getTorques_after_getMaxPayload_witness :
  let w := toy.arm in
  let a := [1; 2]%float in
  let r := (true, (4.5 / 10)%float, 1) in
  let w' := toy.after_payload_query w toy.arm_group a in
  let v := zeros (self w) in
  let wr := no_wrenches (self w) in
  let t := [8; 8]%float in
  let res := (true, [1; 1]%float) in
  let w1 := record w [solve_event a v v wr] in
  (getMaxPayload a 55%float 7 w = Returns r w' /\
   getTorques a v v wr t w = Returns res w1) /\
  exists w2, getTorques a v v wr t w' = Returns res w2.
Proof.
  intros w a r w' v wr t res w1.
  assert (Hrun : getMaxPayload a 55%float 7 w = Returns r w') by (vm_compute; reflexivity).
  assert (Hbefore : getTorques a v v wr t w = Returns res w1) by (vm_compute; reflexivity).
  split; [exact (conj Hrun Hbefore)|].
  exact (getTorques_after_getMaxPayload w w' w1 a 55%float 7 r a v v wr t res Hrun Hbefore).
Defined.

Lemma zero_limit_gives_zero_payload_witness :
  let w := toy.arm_with_fixed_joint in
  let a := [1; 2]%float in
  let r := toy.answer w a (no_wrenches (self w)) in
  let i := 1 in
  (valid (self w) = true /\
   num_joints_ (self w) <= length (max_torques_ (self w)) /\
   length a = num_joints_ (self w) /\
   solve_for (self w) a (zeros (self w)) (zeros (self w)) (no_wrenches (self w)) = Some r /\
   (0 <= r.1)%Z /\
   i < num_joints_ (self w) /\
   is_zero (limit (self w) i) = true /\
   is_nan (r.2 i) = false) /\
  exists k,
    k <= i /\
    getMaxPayload a 55%float 7 w
    = Returns (true, 0%float, k)
        (record w [solve_event a (zeros (self w)) (zeros (self w)) (no_wrenches (self w))]).
Proof.
  intros w a r i.
  assert (Hvalid : valid (self w) = true) by (vm_compute; reflexivity).
  assert (Hlimits : num_joints_ (self w) <= length (max_torques_ (self w)))
    by (vm_compute; lia).
  assert (Ha : length a = num_joints_ (self w)) by (vm_compute; reflexivity).
  assert (Hsolve : solve_for (self w) a (zeros (self w)) (zeros (self w))
                     (no_wrenches (self w)) = Some r) by (vm_compute; reflexivity).
  assert (Hstatus : (0 <= r.1)%Z) by (vm_compute; discriminate).
  assert (Hi : i < num_joints_ (self w)) by (vm_compute; lia).
  assert (Hzero : is_zero (limit (self w) i) = true) by (vm_compute; reflexivity).
  assert (Hnan : is_nan (r.2 i) = false) by (vm_compute; reflexivity).
  split; [exact (conj Hvalid (conj Hlimits (conj Ha (conj Hsolve
                  (conj Hstatus (conj Hi (conj Hzero Hnan)))))))|].
  exact (zero_limit_gives_zero_payload w a 55%float 7 r i
           Hvalid Hlimits Ha Hsolve Hstatus Hi Hzero Hnan).
Defined.

Lemma getMaxPayload_nan_torques_witness :
  let w := toy.arm in
  let a := [nan; nan]%float in
  let group := toy.arm_group in
  let st := toy.rest in
  let st' := setJointGroupPositions st group a in
  let unit_wrenches := tip_wrenches (self w) (tip_to_base (self w) st') 1 in
  let r0 := toy.answer w a (no_wrenches (self w)) in
  let r1 := toy.answer w a unit_wrenches in
  (joint_model_group_ (self w) = Some group /\
   state_ (self w) = Some st /\
   num_joints_ (self w) <= length (max_torques_ (self w)) /\
   0 < num_segments_ (self w) /\
   length a = num_joints_ (self w) /\
   solve_for (self w) a (zeros (self w)) (zeros (self w)) (no_wrenches (self w)) = Some r0 /\
   (0 <= r0.1)%Z /\
   (forall i, i < num_joints_ (self w) -> is_nan (r0.2 i) = true) /\
   solve_for (self w) a (zeros (self w)) (zeros (self w)) unit_wrenches = Some r1 /\
   (0 <= r1.1)%Z) /\
  getMaxPayload a 55%float 7 w
  = Returns (true, (double.numeric_limits_max / gravity_ (self w))%float, 7)
      {| self := set_state_ (Some st') (self w);
         trace := trace w ++
           [solve_event a (zeros (self w)) (zeros (self w)) (no_wrenches (self w));
            solve_event a (zeros (self w)) (zeros (self w)) unit_wrenches] |}.
Proof.
  intros w a group st st' unit_wrenches r0 r1.
  assert (Hgroup : joint_model_group_ (self w) = Some group) by (vm_compute; reflexivity).
  assert (Hst : state_ (self w) = Some st) by (vm_compute; reflexivity).
  assert (Hlimits : num_joints_ (self w) <= length (max_torques_ (self w)))
    by (vm_compute; lia).
  assert (Hseg : 0 < num_segments_ (self w)) by (vm_compute; lia).
  assert (Ha : length a = num_joints_ (self w)) by (vm_compute; reflexivity).
  assert (Hsolve0 : solve_for (self w) a (zeros (self w)) (zeros (self w))
                      (no_wrenches (self w)) = Some r0) by (vm_compute; reflexivity).
  assert (Hstatus0 : (0 <= r0.1)%Z) by (vm_compute; discriminate).
  assert (Hnan : forall i, i < num_joints_ (self w) -> is_nan (r0.2 i) = true).
  { intros i Hi. vm_compute in Hi.
    destruct i as [|[|i]]; [vm_compute; reflexivity..|lia]. }
  assert (Hsolve1 : solve_for (self w) a (zeros (self w)) (zeros (self w)) unit_wrenches
                    = Some r1) by (vm_compute; reflexivity).
  assert (Hstatus1 : (0 <= r1.1)%Z) by (vm_compute; discriminate).
  split; [exact (conj Hgroup (conj Hst (conj Hlimits (conj Hseg (conj Ha
                  (conj Hsolve0 (conj Hstatus0 (conj Hnan (conj Hsolve1 Hstatus1)))))))))|].
  exact (getMaxPayload_nan_torques w a 55%float 7 group st r0 r1
           Hgroup Hst Hlimits Hseg Ha Hsolve0 Hstatus0 Hnan Hsolve1 Hstatus1).
Defined.

Lemma payload_queries_return_witness :
  let w := toy.arm in
  let a := [1; 2; 3]%float in
  let t := [8]%float in
  (constructed (self w) = true /\
   (valid (self w) = true ->
    num_joints_ (self w) <= length (max_torques_ (self w)) /\ 0 < num_segments_ (self w))) /\
  (exists r w', getMaxPayload a 0.5%float 7 w = Returns r w') /\
  (exists r w', getPayloadTorques a 0.5%float t w = Returns r w').
Proof.
  intros w a t.
  assert (Hctor : constructed (self w) = true) by (vm_compute; reflexivity).
  assert (Hshape : valid (self w) = true ->
            num_joints_ (self w) <= length (max_torques_ (self w)) /\
            0 < num_segments_ (self w))
    by (intros _; split; vm_compute; lia).
  split; [exact (conj Hctor Hshape)|].
  exact (payload_queries_return w a 0.5%float 7 t Hctor Hshape).
Defined.


Lemma construct_limits_follow_names_witness :
  let w0 := toy.arm_with_fixed_joint in
  let gravity_vector := toy.vector3 0 0 (-10) in
  (construct (ext := toy.collaborators) toy.garbage toy.robot_with_fixed_joint "arm" gravity_vector = Returns tt w0 /\
   valid (self w0) = true) /\
  exists group,
    moveit_core.getJointModelGroup toy.robot_with_fixed_joint "arm" = Some group /\
    length (max_torques_ (self w0)) = length (moveit_core.getJointModelNames group) /\
    forall k joint_model_name,
      moveit_core.getJointModelNames group !! k = Some joint_model_name ->
      max_torques_ (self w0) !! k
      = Some match urdf.getJoint (moveit_core.getURDF toy.robot_with_fixed_joint)
                     joint_model_name with
             | Some ujoint =>
                 match urdf.limits ujoint with
                 | Some l => urdf.effort l
                 | None => 0%float
                 end
             | None => 0%float
             end.
Proof.
  intros w0 gravity_vector.
  assert (Hrun : construct (ext := toy.collaborators) toy.garbage toy.robot_with_fixed_joint "arm" gravity_vector
                 = Returns tt w0) by (vm_compute; reflexivity).
  assert (Hvalid : valid (self w0) = true) by (vm_compute; reflexivity).
  split; [exact (conj Hrun Hvalid)|].
  exact (construct_limits_follow_names toy.garbage toy.robot_with_fixed_joint "arm"
           gravity_vector w0 Hrun Hvalid).
Defined.

